(** * Verification of the posts router (routes/posts.js)

    A shallow embedding of the Express route handlers of [routes/posts.js]
    and of the part of the Mongoose/MongoDB query layer they call, followed
    by the properties of the handlers.

    Conventions of the embedding.
    - An [ObjectId] is represented by its canonical string (24 lower-case
      hexadecimal digits), so [toString()] on an ObjectId is the identity and
      the source's [a.toString() === b] is [String.eqb a b].
    - A string of a request is the UTF-8 encoding of the JavaScript
      string.
    - JavaScript numbers that hold integers are integers of [Z]; every
      arithmetic operation of the source rounds its exact result to the
      nearest double ([to_double]).  Overflow to [Infinity] (beyond 2^1024)
      and non-integral numbers are outside the model.
    - Dates are milliseconds since the epoch, in [Z].
    - A collection is a finite map from [_id] to document.
    - A handler is a function from the store and the request to an outcome
      and the store afterwards.  [protect] (middleware/auth.js) runs before
      the private handlers and provides [req.user]; [validatePost] and
      [validateComment] (middleware/validation.js) run before the handlers
      that take a body.  A failure forwarded with [next(error)] is the
      outcome [Next]. *)

From Stdlib Require Import ZArith List Ascii String Sorted Permutation Lia.
From stdpp Require Import base option list sorting gmap strings.

Local Open Scope string_scope.
Local Open Scope list_scope.
Local Open Scope Z_scope.

(** ** JavaScript values *)

Module JS.

(** Rounding of an exact integer result to a double: nearest, ties to
    even, 53 bits of precision. *)
Definition to_double (n : Z) : Z :=
  let a := Z.abs n in
  if a <? 2 ^ 53 then n
  else
    let e := Z.log2 a - 52 in
    let q := a / 2 ^ e in
    let r := a mod 2 ^ e in
    let h := 2 ^ (e - 1) in
    let q' :=
      if r <? h then q
      else if h <? r then q + 1
      else if Z.even q then q else q + 1 in
    Z.sgn n * (q' * 2 ^ e).

Definition add (a b : Z) : Z := to_double (a + b).
Definition sub (a b : Z) : Z := to_double (a - b).
Definition mul (a b : Z) : Z := to_double (a * b).

(** [Number.isSafeInteger]. *)
Definition safe (n : Z) : Prop := Z.abs n < 2 ^ 53.

(** Truthiness of a string-valued request parameter: [undefined] and the
    empty string are falsy. *)
Definition truthy (p : option string) : option string :=
  match p with
  | Some s => if String.eqb s "" then None else Some s
  | None => None
  end.

(** The one-byte characters of StrWhiteSpaceChar, the white space
    [parseInt] skips: TAB, LF, VT, FF, CR and SP. *)
Definition is_space (c : ascii) : bool :=
  let n := nat_of_ascii c in
  ((9 <=? n) && (n <=? 13))%nat || (n =? 32)%nat.

(** What follows the first character of [s] when that character is in
    StrWhiteSpaceChar.  Beside the one-byte ones these are, in UTF-8:
    U+00A0 (C2 A0), U+1680 (E1 9A 80), U+2000 to U+200A (E2 80 80 to 8A),
    U+2028, U+2029 and U+202F (E2 80 A8, A9, AF), U+205F (E2 81 9F),
    U+3000 (E3 80 80) and U+FEFF (EF BB BF). *)
Definition space_rest (s : string) : option string :=
  match s with
  | EmptyString => None
  | String c1 s1 =>
      if is_space c1 then Some s1
      else
        match s1 with
        | EmptyString => None
        | String c2 s2 =>
            let b1 := nat_of_ascii c1 in
            let b2 := nat_of_ascii c2 in
            if ((b1 =? 194) && (b2 =? 160))%nat then Some s2
            else
              match s2 with
              | EmptyString => None
              | String c3 s3 =>
                  let b3 := nat_of_ascii c3 in
                  if ((b1 =? 225) && (b2 =? 154) && (b3 =? 128)
                      || (b1 =? 226) && (b2 =? 128)
                         && ((128 <=? b3) && (b3 <=? 138) || (b3 =? 168)
                             || (b3 =? 169) || (b3 =? 175))
                      || (b1 =? 226) && (b2 =? 129) && (b3 =? 159)
                      || (b1 =? 227) && (b2 =? 128) && (b3 =? 128)
                      || (b1 =? 239) && (b2 =? 187) && (b3 =? 191))%nat
                  then Some s3
                  else None
              end
        end
  end.

Definition digit_of (c : ascii) : option Z :=
  let n := Z.of_nat (nat_of_ascii c) in
  if (48 <=? n) && (n <=? 57) then Some (n - 48) else None.

(** [s] without its leading white space; at most [n] characters are
    skipped. *)
Fixpoint skip_n (n : nat) (s : string) : string :=
  match n with
  | O => s
  | S n' =>
      match space_rest s with
      | Some r => skip_n n' r
      | None => s
      end
  end.

Definition skip_spaces (s : string) : string := skip_n (String.length s) s.

(** The longest prefix of decimal digits, read as a number; [None] when
    there is no digit. *)
Fixpoint digits (acc : option Z) (s : string) : option Z :=
  match s with
  | String c s' =>
      match digit_of c with
      | Some d => digits (Some (10 * default 0 acc + d)) s'
      | None => acc
      end
  | EmptyString => acc
  end.

(** [parseInt(p, 10)]; [None] is [NaN].  An absent parameter is
    [undefined], which parses as the string "undefined". *)
Definition parseInt (p : option string) : option Z :=
  match p with
  | None => None
  | Some s =>
      match skip_spaces s with
      | String "-" s' => (fun v => to_double (- v)) <$> digits None s'
      | String "+" s' => to_double <$> digits None s'
      | s' => to_double <$> digits None s'
      end
  end.

(** [parseInt(p, 10) || d]: [NaN] and [0] are falsy. *)
Definition parseInt_or (p : option string) (d : Z) : Z :=
  match parseInt p with
  | Some v => if v =? 0 then d else v
  | None => d
  end.

(** [s.split(',')]. *)
Fixpoint split_comma_aux (cur : string) (s : string) : list string :=
  match s with
  | EmptyString => [String.rev cur]
  | String c s' =>
      if Ascii.eqb c "," then String.rev cur :: split_comma_aux "" s'
      else split_comma_aux (String c cur) s'
  end.

Definition split_comma (s : string) : list string := split_comma_aux "" s.

(** [xs.findIndex(f)], with [None] for [-1]. *)
Fixpoint findIndex {A} (f : A -> bool) (xs : list A) : option nat :=
  match xs with
  | [] => None
  | x :: xs' => if f x then Some 0%nat else S <$> findIndex f xs'
  end.

(** [xs.splice(i, 1)]. *)
Definition splice1 {A} (i : nat) (xs : list A) : list A :=
  take i xs ++ drop (S i) xs.

(** [xs.splice(-1, 1)]: a negative start counts from the end. *)
Definition splice_last {A} (xs : list A) : list A :=
  take (length xs - 1) xs.

End JS.

(** ** Documents (models/Post.js and models/User.js, as the README's
    Data Models section gives them) *)

Abbreviation ObjectId := string.

Record User := {
  name : string;
  email : string;
  role : string
}.

(** An entry of [likes]: [{ user, createdAt }], the fields the README
    gives, in that order.  An [_id] of the entry, if the schema adds one, is
    generated when the like is and is left out. *)
Record Like := {
  like_user : ObjectId;
  like_createdAt : Z
}.

(** An entry of [comments]; a subdocument has an [_id] of its own. *)
Record Comment := {
  comment_id : ObjectId;
  comment_user : ObjectId;
  comment_content : string;
  comment_createdAt : Z
}.

(** A post; its [_id] is its key in the collection.  [excerpt],
    [featuredImage], [publishedAt] and [updatedAt] are read by no handler
    and are left out. *)
Record Post := {
  title : string;
  content : string;
  category : option string;
  tags : list string;
  status : string;
  author : ObjectId;
  likes : list Like;
  comments : list Comment;
  viewCount : Z;
  createdAt : Z
}.

Definition set_viewCount (v : Z) (p : Post) : Post :=
  {| title := title p; content := content p; category := category p;
     tags := tags p; status := status p; author := author p;
     likes := likes p; comments := comments p; viewCount := v;
     createdAt := createdAt p |}.

Definition set_likes (l : list Like) (p : Post) : Post :=
  {| title := title p; content := content p; category := category p;
     tags := tags p; status := status p; author := author p;
     likes := l; comments := comments p; viewCount := viewCount p;
     createdAt := createdAt p |}.

Definition set_comments (c : list Comment) (p : Post) : Post :=
  {| title := title p; content := content p; category := category p;
     tags := tags p; status := status p; author := author p;
     likes := likes p; comments := c; viewCount := viewCount p;
     createdAt := createdAt p |}.

(** The two collections. *)
Record Store := {
  users : gmap string User;
  posts : gmap string Post
}.

Definition set_posts (m : gmap string Post) (s : Store) : Store :=
  {| users := users s; posts := m |}.

(** What [next(error)] forwards. *)
Inductive Error :=
| CastError        (* a string that is no ObjectId *)
| ValidationError  (* a schema validator rejected a document or an update *)
| MongoServerError (* the server rejected a query *)
| TypeError.       (* a property of [null] was read *)

Inductive result (A : Type) :=
| Ok (a : A)
| Throw (e : Error).
Arguments Ok {A} a.
Arguments Throw {A} e.

#[global] Instance result_bind : MBind result :=
  fun A B (k : A -> result B) (r : result A) =>
    match r with
    | Ok a => k a
    | Throw e => Throw e
    end.

#[global] Instance result_ret : MRet result := fun A a => Ok a.

(** ** Requests and responses *)

(** [req.user], the User document that [protect] attaches: [id] is
    [_id.toString()]. *)
Record ReqUser := {
  user_id : ObjectId;
  user_role : string
}.

(** [req.query]: every parameter is a string or absent. *)
Record ReqQuery := {
  q_page : option string;
  q_limit : option string;
  q_category : option string;
  q_tags : option string;
  q_search : option string;
  q_author : option string;
  q_sortBy : option string;
  q_status : option string
}.

(** [req.body] of the post routes, after JSON parsing, restricted to the
    paths of the Post schema that a handler reads: a path is present or
    absent.  The entries of [likes] and [comments] are the sub-documents
    as cast, each with the date and, for a comment, the [_id] it is stored
    with; a [createdAt] of the body itself is not among the paths. *)
Record PostBody := {
  b_title : option string;
  b_content : option string;
  b_category : option string;
  b_tags : option (list string);
  b_status : option string;
  b_author : option string;
  b_likes : option (list Like);
  b_comments : option (list Comment);
  b_viewCount : option Z
}.

Definition set_b_author (a : string) (b : PostBody) : PostBody :=
  {| b_title := b_title b; b_content := b_content b;
     b_category := b_category b; b_tags := b_tags b;
     b_status := b_status b; b_author := Some a; b_likes := b_likes b;
     b_comments := b_comments b; b_viewCount := b_viewCount b |}.

Record Cursor := {
  page : Z;
  limit : Z
}.

Record Pagination := {
  next : option Cursor;
  prev : option Cursor
}.

(** A post as a response carries it: with its [_id] and with [author]
    populated ([null] when the reference does not resolve).  The populated
    [comments.user] and [likes.user] only decorate the entries and are left
    out. *)
Record PostView := {
  view_id : ObjectId;
  view_post : Post;
  view_author : option User
}.

(** The JSON bodies the handlers send. *)
Inductive Body :=
| Fail (message : string)
| Page (count total : Z) (pagination : Pagination)
       (category : option string) (posts : list PostView)
| OnePost (message : option string) (post : option PostView)
| Done (message : string)
| LikeResult (message : string) (liked : bool) (likeCount : Z)
| CommentResult (message : string) (comment : option Comment).

Inductive Outcome :=
| Json (status : Z) (body : Body)   (* res.status(status).json(body) *)
| Next (e : Error).                 (* next(error) *)

(** ** The query layer (Mongoose over MongoDB) *)

#[global] Instance result_fmap : FMap result :=
  fun A B (f : A -> B) (r : result A) =>
    match r with
    | Ok a => Ok (f a)
    | Throw e => Throw e
    end.

Definition is_hex (c : ascii) : bool :=
  let n := nat_of_ascii c in
  (((48 <=? n) && (n <=? 57)) || ((97 <=? n) && (n <=? 102))
   || ((65 <=? n) && (n <=? 70)))%nat.

Definition lower (c : ascii) : ascii :=
  let n := nat_of_ascii c in
  if ((65 <=? n) && (n <=? 90))%nat then ascii_of_nat (n + 32) else c.

Fixpoint string_map (f : ascii -> ascii) (s : string) : string :=
  match s with
  | EmptyString => EmptyString
  | String c s' => String (f c) (string_map f s')
  end.

(** Casting a string to an ObjectId: 24 hexadecimal digits, of either
    case.  Every version of Mongoose casts these and refuses a string whose
    length is neither 24 nor 12; a string of 12 characters is refused by the
    current versions, as here, and was cast to the ObjectId of its 12 bytes
    by earlier ones. *)
Definition cast_oid (s : string) : result ObjectId :=
  if (String.length s =? 24)%nat && forallb is_hex (list_ascii_of_string s)
  then Ok (string_map lower s)
  else Throw CastError.

(** A sort specification [{ field: 1 }] or [{ field: -1 }]. *)
Inductive SortField := ByCreatedAt | ByViewCount | ByLikes | ByTitle.
Inductive Dir := Asc | Desc.

Record SortSpec := {
  sort_field : SortField;
  sort_dir : Dir
}.

(** BSON order of embedded documents: field by field, in field order. *)
Definition cmp_like (a b : Like) : comparison :=
  match String.compare (like_user a) (like_user b) with
  | Eq => Z.compare (like_createdAt a) (like_createdAt b)
  | c => c
  end.

(** The sort key of an array field: its least element for an ascending
    sort, its greatest for a descending one; an empty array has no key. *)
Definition pick (d : Dir) (a b : Like) : Like :=
  match d, cmp_like a b with
  | Asc, Gt => b
  | Desc, Lt => b
  | _, _ => a
  end.

Fixpoint array_key (d : Dir) (l : list Like) : option Like :=
  match l with
  | [] => None
  | x :: l' =>
      match array_key d l' with
      | None => Some x
      | Some y => Some (pick d x y)
      end
  end.

(** A missing key sorts before every document. *)
Definition cmp_key (a b : option Like) : comparison :=
  match a, b with
  | None, None => Eq
  | None, Some _ => Lt
  | Some _, None => Gt
  | Some x, Some y => cmp_like x y
  end.

Definition cmp_field (f : SortField) (d : Dir) (a b : Post) : comparison :=
  match f with
  | ByCreatedAt => Z.compare (createdAt a) (createdAt b)
  | ByViewCount => Z.compare (viewCount a) (viewCount b)
  | ByTitle => String.compare (title a) (title b)
  | ByLikes => cmp_key (array_key d (likes a)) (array_key d (likes b))
  end.

Definition not_gt (c : comparison) : bool :=
  match c with
  | Gt => false
  | _ => true
  end.

(** [a] may come before [b] in a result sorted by [spec]. *)
Definition sort_leb (spec : SortSpec) (a b : ObjectId * Post) : bool :=
  match sort_dir spec with
  | Asc => not_gt (cmp_field (sort_field spec) Asc a.2 b.2)
  | Desc => not_gt (cmp_field (sort_field spec) Desc b.2 a.2)
  end.

Definition sort_le (spec : SortSpec) (a b : ObjectId * Post) : Prop :=
  Is_true (sort_leb spec a b).

#[global] Instance sort_le_dec spec a b : Decision (sort_le spec a b) :=
  Is_true_dec _.

Definition sort_docs (spec : SortSpec) (l : list (ObjectId * Post))
  : list (ObjectId * Post) :=
  merge_sort (sort_le spec) l.

(** A filter object: each condition is present or absent. *)
Record Filter := {
  f_status : option string;    (* status: s *)
  f_category : option string;  (* category: { $regex: s, $options: 'i' } *)
  f_tags : option (list string);  (* tags: { $in: ts } *)
  f_or : option string;  (* $or: [{ title: rx s }, { content: rx s }] *)
  f_author : option string     (* author: s *)
}.

Definition populate (s : Store) (d : ObjectId * Post) : PostView :=
  {| view_id := d.1; view_post := d.2; view_author := users s !! author d.2 |}.

Definition save (k : ObjectId) (p : Post) (s : Store) : Store :=
  set_posts (<[k := p]> (posts s)) s.

Definition findById (rid : string) (s : Store)
  : result (option (ObjectId * Post)) :=
  k ← cast_oid rid;
  Ok ((fun p => (k, p)) <$> posts s !! k).

Definition findByIdAndDelete (rid : string) (s : Store) : result Store :=
  k ← cast_oid rid;
  Ok (set_posts (delete k (posts s)) s).

Definition cast_opt (a : option string) : result (option ObjectId) :=
  match a with
  | Some x => Some <$> cast_oid x
  | None => Ok None
  end.

Section Router.

(** What the router takes from outside routes/posts.js:
    - the regular-expression engine of the server: a pattern with option
      [i] compiles to a matcher, or is rejected;
    - the Post schema (models/Post.js): the default of [status], the
      validators of a new document and the update validators
      ([runValidators: true]). *)
Variable regex_i : string -> option (string -> bool).
Variable default_status : string.
Variable validate_doc : Post -> bool.
Variable validate_update : PostBody -> bool.

Definition compile_opt (pat : option string)
  : result (option (string -> bool)) :=
  match pat with
  | None => Ok None
  | Some r =>
      match regex_i r with
      | Some m => Ok (Some m)
      | None => Throw MongoServerError
      end
  end.

(** The predicate a filter object denotes: its conditions are conjoined. *)
Definition matches (q : Filter) : result (Post -> bool) :=
  a ← cast_opt (f_author q);
  c ← compile_opt (f_category q);
  o ← compile_opt (f_or q);
  Ok (fun p =>
        match f_status q with
        | Some st => String.eqb (status p) st
        | None => true
        end
        && match c with
           | Some m => from_option m false (category p)
           | None => true
           end
        && match f_tags q with
           | Some ts => existsb (fun t => existsb (String.eqb t) ts) (tags p)
           | None => true
           end
        && match o with
           | Some m => m (title p) || m (content p)
           | None => true
           end
        && match a with
           | Some x => String.eqb (author p) x
           | None => true
           end).

Definition matching (q : Filter) (s : Store)
  : result (list (ObjectId * Post)) :=
  m ← matches q;
  Ok (List.filter (fun d => m d.2) (map_to_list (posts s))).

(** [Post.countDocuments(query)]. *)
Definition countDocuments (q : Filter) (s : Store) : result Z :=
  l ← matching q s;
  Ok (Z.of_nat (length l)).

(** [Post.find(query).sort(spec).limit(n).skip(k)]: the server sorts,
    then skips, then limits.  A negative skip is rejected; a limit of 0
    is no limit and the driver sends a negative limit as its absolute
    value. *)
Definition find (q : Filter) (spec : SortSpec) (n k : Z) (s : Store)
  : result (list (ObjectId * Post)) :=
  l ← matching q s;
  if k <? 0 then Throw MongoServerError
  else
    let rest := drop (Z.to_nat k) (sort_docs spec l) in
    Ok (if n =? 0 then rest else take (Z.to_nat (Z.abs n)) rest).

(** The document an update leaves: every path present in the update
    replaces the stored one. *)
Definition apply_update (b : PostBody) (a : option ObjectId) (p : Post)
  : Post :=
  {| title := default (title p) (b_title b);
     content := default (content p) (b_content b);
     category := match b_category b with
                 | Some c => Some c
                 | None => category p
                 end;
     tags := default (tags p) (b_tags b);
     status := default (status p) (b_status b);
     author := default (author p) a;
     likes := default (likes p) (b_likes b);
     comments := default (comments p) (b_comments b);
     viewCount := default (viewCount p) (b_viewCount b);
     createdAt := createdAt p |}.

(** [Post.findByIdAndUpdate(id, update, { new: true, runValidators: true })]:
    the update is cast, validated and applied; the new document is
    returned, or [null] when there is none. *)
Definition findByIdAndUpdate (rid : string) (b : PostBody) (s : Store)
  : result (Store * option (ObjectId * Post)) :=
  k ← cast_oid rid;
  a ← cast_opt (b_author b);
  if validate_update b then
    match posts s !! k with
    | Some p =>
        let p' := apply_update b a p in
        Ok (save k p' s, Some (k, p'))
    | None => Ok (s, None)
    end
  else Throw ValidationError.

(** [Post.create(doc)]: [title], [content] and [author] are required, the
    other paths have defaults; [fresh] is the generated [_id] and [now]
    the creation time. *)
Definition create (fresh : ObjectId) (now : Z) (b : PostBody) (s : Store)
  : result (Store * ObjectId) :=
  a ← cast_opt (b_author b);
  match b_title b, b_content b, a with
  | Some t, Some c, Some a' =>
      let p := {| title := t; content := c; category := b_category b;
                  tags := default [] (b_tags b);
                  status := default default_status (b_status b);
                  author := a';
                  likes := default [] (b_likes b);
                  comments := default [] (b_comments b);
                  viewCount := default 0 (b_viewCount b);
                  createdAt := now |} in
      if validate_doc p then
        match posts s !! fresh with
        | None => Ok (save fresh p s, fresh)
        | Some _ => Throw MongoServerError
        end
      else Throw ValidationError
  | _, _, _ => Throw ValidationError
  end.

(** ** The handlers *)

Definition not_found : Outcome := Json 404 (Fail "Post not found").

(** The pagination object of the three listings. *)
Definition pagination_of (page limit startIndex total : Z) : Pagination :=
  {| next := if JS.add startIndex limit <? total
             then Some {| page := JS.add page 1; limit := limit |}
             else None;
     prev := if 0 <? startIndex
             then Some {| page := JS.sub page 1; limit := limit |}
             else None |}.

Definition set_category (c : string) (q : Filter) : Filter :=
  {| f_status := f_status q; f_category := Some c; f_tags := f_tags q;
     f_or := f_or q; f_author := f_author q |}.

Definition set_tags (t : list string) (q : Filter) : Filter :=
  {| f_status := f_status q; f_category := f_category q; f_tags := Some t;
     f_or := f_or q; f_author := f_author q |}.

Definition set_or (r : string) (q : Filter) : Filter :=
  {| f_status := f_status q; f_category := f_category q;
     f_tags := f_tags q; f_or := Some r; f_author := f_author q |}.

Definition set_author (a : string) (q : Filter) : Filter :=
  {| f_status := f_status q; f_category := f_category q;
     f_tags := f_tags q; f_or := f_or q; f_author := Some a |}.

Definition set_status (st : string) (q : Filter) : Filter :=
  {| f_status := Some st; f_category := f_category q; f_tags := f_tags q;
     f_or := f_or q; f_author := f_author q |}.

Definition when {A} (p : option string) (f : string -> A -> A) (a : A) : A :=
  match JS.truthy p with
  | Some v => f v a
  | None => a
  end.

(** The [switch] on [req.query.sortBy]. *)
Definition sort_option (p : option string) : SortSpec :=
  let sortBy := {| sort_field := ByCreatedAt; sort_dir := Desc |} in
  match JS.truthy p with
  | Some v =>
      if String.eqb v "oldest"
      then {| sort_field := ByCreatedAt; sort_dir := Asc |}
      else if String.eqb v "popular"
      then {| sort_field := ByViewCount; sort_dir := Desc |}
      else if String.eqb v "mostLiked"
      then {| sort_field := ByLikes; sort_dir := Desc |}
      else if String.eqb v "title"
      then {| sort_field := ByTitle; sort_dir := Asc |}
      else sortBy
  | None => sortBy
  end.

Definition respond_page (s : Store) (query : Filter) (sortBy : SortSpec)
    (page limit startIndex : Z) (category : option string) : Outcome :=
  match countDocuments query s with
  | Throw e => Next e
  | Ok total =>
      match find query sortBy (JS.mul limit 1) startIndex s with
      | Throw e => Next e
      | Ok docs =>
          let posts := populate s <$> docs in
          let pagination := pagination_of page limit startIndex total in
          Json 200 (Page (Z.of_nat (length posts)) total pagination
                         category posts)
      end
  end.

(** The query object GET / builds. *)
Definition list_query (q : ReqQuery) : Filter :=
  let query := {| f_status := Some "published"; f_category := None;
                  f_tags := None; f_or := None; f_author := None |} in
  let query := when (q_category q) set_category query in
  let query := when (q_tags q)
                    (fun t => set_tags (JS.split_comma t)) query in
  let query := when (q_search q) set_or query in
  let query := when (q_author q) set_author query in
  query.

(** GET / *)
Definition list_posts (s : Store) (q : ReqQuery) : Outcome :=
  let page := JS.parseInt_or (q_page q) 1 in
  let limit := JS.parseInt_or (q_limit q) 10 in
  let startIndex := JS.mul (JS.sub page 1) limit in
  let query := list_query q in
  let sortBy := sort_option (q_sortBy q) in
  respond_page s query sortBy page limit startIndex None.

(** The query object GET /my/posts builds. *)
Definition my_query (u : ReqUser) (q : ReqQuery) : Filter :=
  let query := {| f_status := None; f_category := None; f_tags := None;
                  f_or := None; f_author := Some (user_id u) |} in
  let query := when (q_status q) set_status query in
  query.

(** GET /my/posts *)
Definition my_posts (s : Store) (u : ReqUser) (q : ReqQuery) : Outcome :=
  let page := JS.parseInt_or (q_page q) 1 in
  let limit := JS.parseInt_or (q_limit q) 10 in
  let startIndex := JS.mul (JS.sub page 1) limit in
  let query := my_query u q in
  respond_page s query {| sort_field := ByCreatedAt; sort_dir := Desc |}
               page limit startIndex None.

(** GET /category/:category *)
Definition category_posts (s : Store) (category : string) (q : ReqQuery)
  : Outcome :=
  let page := JS.parseInt_or (q_page q) 1 in
  let limit := JS.parseInt_or (q_limit q) 10 in
  let startIndex := JS.mul (JS.sub page 1) limit in
  let query := {| f_status := Some "published";
                  f_category := Some category; f_tags := None;
                  f_or := None; f_author := None |} in
  respond_page s query {| sort_field := ByCreatedAt; sort_dir := Desc |}
               page limit startIndex (Some category).

(** GET /:id; [user] is [req.user], which no middleware of this route
    sets. *)
Definition get_post (s : Store) (user : option ReqUser) (rid : string)
  : Outcome * Store :=
  match findById rid s with
  | Throw e => (Next e, s)
  | Ok None => (not_found, s)
  | Ok (Some d) =>
      let post := populate s d in
      (* post.status !== 'published' &&
         (!req.user || req.user.id !== post.author._id.toString()) *)
      let hidden : result bool :=
        if negb (String.eqb (status d.2) "published") then
          match user with
          | None => Ok true
          | Some u =>
              match view_author post with
              | Some _ => Ok (negb (String.eqb (user_id u) (author d.2)))
              | None => Throw TypeError
              end
          end
        else Ok false in
      match hidden with
      | Throw e => (Next e, s)
      | Ok true => (not_found, s)
      | Ok false =>
          let p' := set_viewCount (JS.add (viewCount d.2) 1) d.2 in
          (Json 200 (OnePost None (Some (populate s (d.1, p')))),
           save d.1 p' s)
      end
  end.

(** POST / *)
Definition create_post (fresh : ObjectId) (now : Z) (s : Store)
    (u : ReqUser) (body : PostBody) : Outcome * Store :=
  let body := set_b_author (user_id u) body in
  match create fresh now body s with
  | Throw e => (Next e, s)
  | Ok (s', k) =>
      let populatedPost := (fun p => populate s' (k, p)) <$> posts s' !! k in
      (Json 201 (OnePost (Some "Post created successfully") populatedPost),
       s')
  end.

(** The ownership test of PUT /:id and DELETE /:id:
    [post.author.toString() !== req.user.id && req.user.role !== 'admin']. *)
Definition not_owner_nor_admin (u : ReqUser) (p : Post) : bool :=
  negb (String.eqb (author p) (user_id u))
  && negb (String.eqb (user_role u) "admin").

(** PUT /:id *)
Definition update_post (s : Store) (u : ReqUser) (rid : string)
    (body : PostBody) : Outcome * Store :=
  match findById rid s with
  | Throw e => (Next e, s)
  | Ok None => (not_found, s)
  | Ok (Some d) =>
      if not_owner_nor_admin u d.2 then
        (Json 401 (Fail "Not authorized to update this post"), s)
      else
        match findByIdAndUpdate rid body s with
        | Throw e => (Next e, s)
        | Ok (s', post) =>
            (Json 200 (OnePost (Some "Post updated successfully")
                               (populate s' <$> post)), s')
        end
  end.

(** DELETE /:id *)
Definition delete_post (s : Store) (u : ReqUser) (rid : string)
  : Outcome * Store :=
  match findById rid s with
  | Throw e => (Next e, s)
  | Ok None => (not_found, s)
  | Ok (Some d) =>
      if not_owner_nor_admin u d.2 then
        (Json 401 (Fail "Not authorized to delete this post"), s)
      else
        match findByIdAndDelete rid s with
        | Throw e => (Next e, s)
        | Ok s' => (Json 200 (Done "Post deleted successfully"), s')
        end
  end.

(** PUT /:id/like *)
Definition like_post (now : Z) (s : Store) (u : ReqUser) (rid : string)
  : Outcome * Store :=
  match findById rid s with
  | Throw e => (Next e, s)
  | Ok None => (not_found, s)
  | Ok (Some d) =>
      let likeIndex :=
        JS.findIndex (fun like => String.eqb (like_user like) (user_id u))
                     (likes d.2) in
      match likeIndex with
      | Some i =>
          let p' := set_likes (JS.splice1 i (likes d.2)) d.2 in
          (Json 200 (LikeResult "Post unliked successfully" false
                                (Z.of_nat (length (likes p')))),
           save d.1 p' s)
      | None =>
          let like := {| like_user := user_id u; like_createdAt := now |} in
          let p' := set_likes (like :: likes d.2) d.2 in
          (Json 200 (LikeResult "Post liked successfully" true
                                (Z.of_nat (length (likes p')))),
           save d.1 p' s)
      end
  end.

(** POST /:id/comments; [content] is [req.body.content]. *)
Definition add_comment (fresh : ObjectId) (now : Z) (s : Store)
    (u : ReqUser) (rid : string) (content : string) : Outcome * Store :=
  match findById rid s with
  | Throw e => (Next e, s)
  | Ok None => (not_found, s)
  | Ok (Some d) =>
      let newComment :=
        {| comment_id := fresh; comment_user := user_id u;
           comment_content := content; comment_createdAt := now |} in
      let p' := set_comments (newComment :: comments d.2) d.2 in
      let s' := save d.1 p' s in
      match findById rid s' with
      | Throw e => (Next e, s')
      | Ok None => (Next TypeError, s')
      | Ok (Some updatedPost) =>
          (Json 201 (CommentResult "Comment added successfully"
                                   (head (comments updatedPost.2))), s')
      end
  end.

(** DELETE /:id/comments/:commentId *)
Definition delete_comment (s : Store) (u : ReqUser) (rid : string)
    (commentId : string) : Outcome * Store :=
  match findById rid s with
  | Throw e => (Next e, s)
  | Ok None => (not_found, s)
  | Ok (Some d) =>
      let is_it := fun c => String.eqb (comment_id c) commentId in
      match List.find is_it (comments d.2) with
      | None => (Json 404 (Fail "Comment not found"), s)
      | Some comment =>
          if negb (String.eqb (comment_user comment) (user_id u))
             && negb (String.eqb (author d.2) (user_id u))
             && negb (String.eqb (user_role u) "admin")
          then (Json 401 (Fail "Not authorized to delete this comment"), s)
          else
            let removeIndex := JS.findIndex is_it (comments d.2) in
            let p' :=
              set_comments (from_option (fun i => JS.splice1 i (comments d.2))
                                        (JS.splice_last (comments d.2))
                                        removeIndex) d.2 in
            (Json 200 (Done "Comment deleted successfully"), save d.1 p' s)
      end
  end.

(** ** The router *)

Inductive Request :=
| GET_list (q : ReqQuery)
| GET_my_posts (u : ReqUser) (q : ReqQuery)
| GET_post (user : option ReqUser) (rid : string)
| POST_post (fresh : ObjectId) (now : Z) (u : ReqUser) (body : PostBody)
| PUT_post (u : ReqUser) (rid : string) (body : PostBody)
| DELETE_post (u : ReqUser) (rid : string)
| PUT_like (now : Z) (u : ReqUser) (rid : string)
| POST_comment (fresh : ObjectId) (now : Z) (u : ReqUser) (rid : string)
               (content : string)
| DELETE_comment (u : ReqUser) (rid : string) (commentId : string)
| GET_category (category : string) (q : ReqQuery).

Definition handle (s : Store) (r : Request) : Outcome * Store :=
  match r with
  | GET_list q => (list_posts s q, s)
  | GET_my_posts u q => (my_posts s u q, s)
  | GET_post user rid => get_post s user rid
  | POST_post fresh now u body => create_post fresh now s u body
  | PUT_post u rid body => update_post s u rid body
  | DELETE_post u rid => delete_post s u rid
  | PUT_like now u rid => like_post now s u rid
  | POST_comment fresh now u rid content =>
      add_comment fresh now s u rid content
  | DELETE_comment u rid commentId => delete_comment s u rid commentId
  | GET_category category q => (category_posts s category q, s)
  end.

End Router.

(** * Vocabulary of the properties *)

(** The page and limit in effect are integers from 1 on whose product is a
    safe integer, so that the arithmetic of the handler is exact. *)
Definition paging_valid (q : ReqQuery) : Prop :=
  let page := JS.parseInt_or (q_page q) 1 in
  let limit := JS.parseInt_or (q_limit q) 10 in
  1 <= page /\ 1 <= limit /\ page * limit < 2 ^ 53.

Definition newest : SortSpec := {| sort_field := ByCreatedAt; sort_dir := Desc |}.

(** A page of posts is ordered by [spec] when each post may come before
    the one that follows it. *)
Definition view_le (spec : SortSpec) (a b : PostView) : Prop :=
  sort_le spec (view_id a, view_post a) (view_id b, view_post b).

Definition page_window (n k : Z) (l : list (ObjectId * Post))
  : list (ObjectId * Post) :=
  let rest := drop (Z.to_nat k) l in
  if n =? 0 then rest else take (Z.to_nat (Z.abs n)) rest.

(** The paging property as the specification words it. *)
Definition paging_as_specified (regex_i : string -> option (string -> bool))
    (s : Store) (q : ReqQuery) : Prop :=
  paging_valid q ->
  forall count total pg cat ps,
    list_posts regex_i s q = Json 200 (Page count total pg cat ps) ->
    let page := JS.parseInt_or (q_page q) 1 in
    let limit := JS.parseInt_or (q_limit q) 10 in
    let startIndex := (page - 1) * limit in
    startIndex + count <= total
    /\ (is_Some (prev pg) <-> 1 < page)
    /\ (is_Some (prev pg) <-> 0 < startIndex)
    /\ (is_Some (next pg) <-> startIndex + limit < total).

(** The filter of GET /my/posts: the author is the caller and, when the
    request names a status, the status is that one. *)
Definition my_filter (a : ObjectId) (st : option string) (p : Post) : bool :=
  match st with
  | Some x => String.eqb (status p) x
  | None => true
  end && String.eqb (author p) a.

(** A run of fetches of one post, each by its own caller. *)
Fixpoint fetch_all (s : Store) (rid : string)
    (callers : list (option ReqUser)) : list Outcome * Store :=
  match callers with
  | [] => ([], s)
  | c :: cs =>
      let (o, s1) := get_post s c rid in
      let (os, s2) := fetch_all s1 rid cs in
      (o :: os, s2)
  end.

(** A successful response: status 200. *)
Definition success (o : Outcome) : Prop := exists b, o = Json 200 b.

(** The like list of a post names no user twice. *)
Definition likes_unique (p : Post) : Prop := NoDup (like_user <$> likes p).

Definition like_inv (s : Store) : Prop :=
  forall k p, posts s !! k = Some p -> likes_unique p.

(** A body sets no like list that names a user twice. *)
Definition likes_payload_ok (b : PostBody) : Prop :=
  match b_likes b with
  | Some l => NoDup (like_user <$> l)
  | None => True
  end.

Definition payload_ok (r : Request) : Prop :=
  match r with
  | POST_post _ _ _ body | PUT_post _ _ body => likes_payload_ok body
  | _ => True
  end.

(** Sample data: two users, an engine that rejects every pattern (no
    sample request carries one) and validators that accept everything. *)
Module Sample.

Definition alice : ObjectId := "00000000000000000000000a".
Definition bob : ObjectId := "00000000000000000000000b".
Definition carol : ObjectId := "00000000000000000000000c".
Definition post1 : ObjectId := "000000000000000000000101".
Definition post2 : ObjectId := "000000000000000000000102".

Definition no_regex (pat : string) : option (string -> bool) := None.
Definition accept_doc (p : Post) : bool := true.
Definition accept_update (b : PostBody) : bool := true.

Definition as_user (k : ObjectId) : ReqUser :=
  {| user_id := k; user_role := "user" |}.
Definition as_admin (k : ObjectId) : ReqUser :=
  {| user_id := k; user_role := "admin" |}.

Definition person (n : string) : User :=
  {| name := n; email := n; role := "user" |}.

Definition people : gmap string User :=
  <[alice := person "alice"]> (<[bob := person "bob"]>
    (<[carol := person "carol"]> ∅)).

Definition like_of (u : ObjectId) (t : Z) : Like :=
  {| like_user := u; like_createdAt := t |}.

Definition a_post (t : string) (st : string) (a : ObjectId)
    (l : list Like) (c : list Comment) (at_ : Z) : Post :=
  {| title := t; content := "text"; category := None; tags := [];
     status := st; author := a; likes := l; comments := c;
     viewCount := 0; createdAt := at_ |}.

Definition no_query : ReqQuery :=
  {| q_page := None; q_limit := None; q_category := None; q_tags := None;
     q_search := None; q_author := None; q_sortBy := None;
     q_status := None |}.

Definition with_page (p : string) (q : ReqQuery) : ReqQuery :=
  {| q_page := Some p; q_limit := q_limit q; q_category := q_category q;
     q_tags := q_tags q; q_search := q_search q; q_author := q_author q;
     q_sortBy := q_sortBy q; q_status := q_status q |}.

Definition with_sortBy (v : string) (q : ReqQuery) : ReqQuery :=
  {| q_page := q_page q; q_limit := q_limit q; q_category := q_category q;
     q_tags := q_tags q; q_search := q_search q; q_author := q_author q;
     q_sortBy := Some v; q_status := q_status q |}.

(** A body that edits title and content. *)
Definition an_edit : PostBody :=
  {| b_title := Some "first, revised"; b_content := Some "new text";
     b_category := None; b_tags := None; b_status := None;
     b_author := None; b_likes := None; b_comments := None;
     b_viewCount := None |}.

Definition with_author (a : string) (b : PostBody) : PostBody :=
  set_b_author a b.

Definition with_likes (l : list Like) (b : PostBody) : PostBody :=
  {| b_title := b_title b; b_content := b_content b;
     b_category := b_category b; b_tags := b_tags b;
     b_status := b_status b; b_author := b_author b; b_likes := Some l;
     b_comments := b_comments b; b_viewCount := b_viewCount b |}.

Definition a_status : string := "draft".

(** One published post of alice. *)
Definition the_post : Post := a_post "first" "published" alice [] [] 100.

Definition one_post : Store :=
  {| users := people;
     posts := <[post1 := the_post]> ∅ |}.

(** A draft of alice. *)
Definition the_draft : Post := a_post "notes" "draft" alice [] [] 100.

Definition a_draft : Store :=
  {| users := people; posts := <[post1 := the_draft]> ∅ |}.

(** A post of alice with a comment of bob and a comment of carol. *)
Definition comment1 : ObjectId := "000000000000000000000c01".
Definition comment2 : ObjectId := "000000000000000000000c02".

Definition a_comment (k u : ObjectId) : Comment :=
  {| comment_id := k; comment_user := u; comment_content := "hello";
     comment_createdAt := 150 |}.

Definition the_commented : Post :=
  a_post "first" "published" alice []
         [a_comment comment1 bob; a_comment comment2 carol] 100.

Definition commented : Store :=
  {| users := people; posts := <[post1 := the_commented]> ∅ |}.

(** Two published posts.  The first, the newer one, has two likes; the
    second has one like, given after those two and by the user with the
    greatest identifier. *)
Definition two_posts : Store :=
  {| users := people;
     posts :=
       <[post1 := a_post "first" "published" alice
                    [like_of alice 10; like_of bob 20] [] 200]>
       (<[post2 := a_post "second" "published" alice
                    [like_of carol 30] [] 100]> ∅) |}.

End Sample.

(** * Vocabulary of the further properties *)

Definition set_q_page (v : option string) (q : ReqQuery) : ReqQuery :=
  {| q_page := v; q_limit := q_limit q; q_category := q_category q;
     q_tags := q_tags q; q_search := q_search q; q_author := q_author q;
     q_sortBy := q_sortBy q; q_status := q_status q |}.

Definition set_q_limit (v : option string) (q : ReqQuery) : ReqQuery :=
  {| q_page := q_page q; q_limit := v; q_category := q_category q;
     q_tags := q_tags q; q_search := q_search q; q_author := q_author q;
     q_sortBy := q_sortBy q; q_status := q_status q |}.

(** What each filter parameter of GET / asks of a post, when the
    parameter is given (a non-empty string). *)
Definition tags_ok (t : option string) (p : Post) : Prop :=
  forall v, JS.truthy t = Some v ->
            exists x, x ∈ tags p /\ x ∈ JS.split_comma v.

Definition author_ok (a : option string) (p : Post) : Prop :=
  forall v, JS.truthy a = Some v -> cast_oid v = Ok (author p).

Definition category_ok (regex_i : string -> option (string -> bool))
    (c : option string) (p : Post) : Prop :=
  forall v, JS.truthy c = Some v ->
            exists rx x, regex_i v = Some rx /\ category p = Some x
                         /\ rx x = true.

Definition search_ok (regex_i : string -> option (string -> bool))
    (r : option string) (p : Post) : Prop :=
  forall v, JS.truthy r = Some v ->
            exists rx, regex_i v = Some rx
                       /\ (rx (title p) = true \/ rx (content p) = true).

(** The outcome neither sends a page or a document nor reports success:
    a failure body, or an error forwarded to the error handler. *)
Definition failed (o : Outcome) : Prop :=
  (exists st m, o = Json st (Fail m)) \/ (exists e, o = Next e).

(** [xs.join(',')], the inverse of [split(',')]. *)
Fixpoint join_comma (l : list string) : string :=
  match l with
  | [] => ""
  | x :: l' =>
      match l' with
      | [] => x
      | _ :: _ => String.append x (String "," (join_comma l'))
      end
  end.

Definition has_comma (x : string) : bool :=
  existsb (fun c => Ascii.eqb c ",") (list_ascii_of_string x).

(** More sample data: an engine whose patterns match exactly themselves,
    and a small blog. *)
Module Blog.

Definition exact (pat : string) : option (string -> bool) :=
  Some (String.eqb pat).

Definition tagged (t : string) (st : string) (a : ObjectId) (c : string)
    (tg : list string) (at_ : Z) : Post :=
  {| title := t; content := "text"; category := Some c; tags := tg;
     status := st; author := a; likes := []; comments := [];
     viewCount := 0; createdAt := at_ |}.

Definition post3 : ObjectId := "000000000000000000000103".
Definition post9 : ObjectId := "000000000000000000000109".

(** Two published posts and a draft. *)
Definition store : Store :=
  {| users := Sample.people;
     posts :=
       <[Sample.post1 := tagged "rocq" "published" Sample.alice "tech"
                           ["proof"; "rocq"] 100]>
       (<[Sample.post2 := tagged "bread" "published" Sample.bob "food"
                            ["baking"] 200]>
       (<[post3 := tagged "plans" "draft" Sample.alice "tech"
                     ["proof"] 300]> ∅)) |}.

Definition by_tags (t : string) : ReqQuery :=
  {| q_page := None; q_limit := None; q_category := None;
     q_tags := Some t; q_search := None; q_author := None;
     q_sortBy := None; q_status := None |}.

(** A body for a new post. *)
Definition a_new_post : PostBody :=
  {| b_title := Some "hello"; b_content := Some "world";
     b_category := None; b_tags := None; b_status := Some "published";
     b_author := None; b_likes := None; b_comments := None;
     b_viewCount := None |}.

End Blog.

(** The number of entries of a like list that reference a user. *)
Definition likes_of_user (uid : ObjectId) (l : list Like) : nat :=
  length (List.filter (fun x => String.eqb (like_user x) uid) l).

(** Two toggles in a row as the specification words them, for one post
    and one user. *)
Definition toggle_twice_as_specified (now1 now2 : Z) (s : Store)
    (u : ReqUser) (rid : string) : Prop :=
  forall k p,
    cast_oid rid = Ok k -> posts s !! k = Some p ->
    let r1 := like_post now1 s u rid in
    let r2 := like_post now2 r1.2 u rid in
    (user_id u ∉ like_user <$> likes p ->
     (exists m c, r1.1 = Json 200 (LikeResult m true c))
     /\ (exists m c, r2.1 = Json 200 (LikeResult m false c)))
    /\ exists p2,
        posts r2.2 !! k = Some p2
        /\ length (likes p2) = length (likes p)
        /\ forall x, x ∈ like_user <$> likes p2 <-> x ∈ like_user <$> likes p.

(** A post of alice that bob has liked twice. *)
Module Doubled.

Definition the_post : Post :=
  Sample.a_post "first" "published" Sample.alice
                [Sample.like_of Sample.bob 1; Sample.like_of Sample.bob 2]
                [] 100.

Definition store : Store :=
  {| users := Sample.people; posts := <[Sample.post1 := the_post]> ∅ |}.

End Doubled.

(** * Properties *)

(** ** Arithmetic on safe integers is exact *)

Lemma to_double_safe (n : Z) : JS.safe n -> JS.to_double n = n.
Proof.
  unfold JS.safe, JS.to_double. intros H.
  destruct (Z.ltb_spec (Z.abs n) (2 ^ 53)) as [_ | Hge]; [reflexivity | lia].
Qed.

Lemma add_safe (a b : Z) : JS.safe (a + b) -> JS.add a b = a + b.
Proof. apply to_double_safe. Qed.

Lemma sub_safe (a b : Z) : JS.safe (a - b) -> JS.sub a b = a - b.
Proof. apply to_double_safe. Qed.

Lemma mul_safe (a b : Z) : JS.safe (a * b) -> JS.mul a b = a * b.
Proof. apply to_double_safe. Qed.

(** Linear arithmetic with the bound of the safe integers spelled out. *)
Lemma two_53 : 2 ^ 53 = 9007199254740992.
Proof. reflexivity. Qed.

Ltac safe_lia := unfold JS.safe in *; rewrite ?two_53 in *; lia.

(** ** Lookups *)

Lemma findById_found (s : Store) (rid k : string) (p : Post) :
  cast_oid rid = Ok k -> posts s !! k = Some p ->
  findById rid s = Ok (Some (k, p)).
Proof. unfold findById. intros -> Hp. simpl. by rewrite Hp. Qed.

Lemma save_lookup (s : Store) (k : string) (p : Post) :
  posts (save k p s) !! k = Some p.
Proof. unfold save. simpl. apply lookup_insert_eq. Qed.

Lemma save_lookup_ne (s : Store) (k k' : string) (p : Post) :
  k ≠ k' -> posts (save k p s) !! k' = posts s !! k'.
Proof. intros Hne. unfold save. simpl. by apply lookup_insert_ne. Qed.

Lemma save_users (s : Store) (k : string) (p : Post) :
  users (save k p s) = users s.
Proof. reflexivity. Qed.

Lemma save_save (s : Store) (k : string) (p p' : Post) :
  save k p (save k p' s) = save k p s.
Proof. unfold save, set_posts. simpl. by rewrite insert_insert_eq. Qed.

Lemma save_same (s : Store) (k : string) (p : Post) :
  posts s !! k = Some p -> save k p s = s.
Proof.
  intros Hp. destruct s as [us ps]. unfold save, set_posts. simpl in *.
  by rewrite insert_id.
Qed.

(** ** The order of a sorted result *)

Lemma cmp_like_antisym (a b : Like) : cmp_like b a = CompOpp (cmp_like a b).
Proof.
  unfold cmp_like. rewrite (String.compare_antisym (like_user a)).
  rewrite (Z.compare_antisym (like_createdAt a)).
  destruct (String.compare (like_user b) (like_user a)); reflexivity.
Qed.

Lemma cmp_key_antisym (a b : option Like) : cmp_key b a = CompOpp (cmp_key a b).
Proof. destruct a, b; simpl; auto using cmp_like_antisym. Qed.

Lemma cmp_field_antisym (f : SortField) (d : Dir) (a b : Post) :
  cmp_field f d b a = CompOpp (cmp_field f d a b).
Proof.
  destruct f; simpl.
  - rewrite (Z.compare_antisym (createdAt a)).
    by destruct (createdAt a ?= createdAt b).
  - rewrite (Z.compare_antisym (viewCount a)).
    by destruct (viewCount a ?= viewCount b).
  - apply cmp_key_antisym.
  - rewrite (String.compare_antisym (title a)).
    by destruct (String.compare (title b) (title a)).
Qed.

#[global] Instance sort_le_total (spec : SortSpec) : Total (sort_le spec).
Proof.
  intros a b. unfold sort_le, sort_leb.
  destruct (sort_dir spec).
  - rewrite (cmp_field_antisym _ _ a.2 b.2).
    destruct (cmp_field (sort_field spec) Asc a.2 b.2); simpl; auto.
  - rewrite (cmp_field_antisym _ _ b.2 a.2).
    destruct (cmp_field (sort_field spec) Desc b.2 a.2); simpl; auto.
Qed.

Lemma Sorted_drop {A} (R : relation A) (n : nat) (l : list A) :
  Sorted R l -> Sorted R (drop n l).
Proof.
  revert l. induction n as [| n IH]; intros [| x l] H; simpl; auto.
  apply IH. by inversion H.
Qed.

Lemma Sorted_take {A} (R : relation A) (n : nat) (l : list A) :
  Sorted R l -> Sorted R (take n l).
Proof.
  intros H. revert n. induction H as [| x l Hs IH Hd]; intros [| n]; simpl;
    try constructor; auto.
  destruct Hd as [| y l' Hxy]; destruct n; simpl; constructor; auto.
Qed.

Lemma Sorted_page_window (R : relation (ObjectId * Post)) n k l :
  Sorted R l -> Sorted R (page_window n k l).
Proof.
  intros H. unfold page_window.
  destruct (n =? 0); auto using Sorted_drop, Sorted_take.
Qed.

Lemma length_page_window n k l :
  1 <= n -> 0 <= k ->
  Z.of_nat (length (page_window n k l))
  = Z.min n (Z.max 0 (Z.of_nat (length l) - k)).
Proof.
  intros Hn Hk. unfold page_window.
  destruct (Z.eqb_spec n 0) as [-> | _]; [lia |].
  rewrite length_take, length_drop. lia.
Qed.

(** ** The listings *)

Section Listing.

Variable regex_i : string -> option (string -> bool).

Lemma respond_page_ok s query spec page limit start cat m :
  matches regex_i query = Ok m -> 0 <= start ->
  let l := List.filter (fun d => m d.2) (map_to_list (posts s)) in
  let docs := page_window (JS.mul limit 1) start (sort_docs spec l) in
  respond_page regex_i s query spec page limit start cat
  = Json 200 (Page (Z.of_nat (length (populate s <$> docs)))
                   (Z.of_nat (length l))
                   (pagination_of page limit start (Z.of_nat (length l)))
                   cat (populate s <$> docs)).
Proof.
  intros Hm Hs. unfold respond_page, countDocuments, find, matching.
  rewrite Hm. simpl.
  destruct (Z.ltb_spec start 0) as [Hlt | _]; [lia | reflexivity].
Qed.

Lemma respond_page_cases s query spec page limit start cat :
  (exists e, respond_page regex_i s query spec page limit start cat = Next e)
  \/ (exists m, matches regex_i query = Ok m /\ 0 <= start).
Proof.
  destruct (matches regex_i query) as [m | e] eqn:Hm.
  - destruct (Z.ltb_spec start 0) as [Hlt | Hge].
    + left. unfold respond_page, countDocuments, find, matching.
      rewrite Hm. simpl.
      destruct (Z.ltb_spec start 0) as [_ | Hge]; [eauto | lia].
    + right. eauto.
  - left. exists e. unfold respond_page, countDocuments, matching.
    by rewrite Hm.
Qed.

(** Every page a listing sends is ordered by the sort specification it
    was asked with. *)
Lemma respond_page_sorted s query spec page limit start cat st c t pg cat' ps :
  respond_page regex_i s query spec page limit start cat
  = Json st (Page c t pg cat' ps) ->
  Sorted (view_le spec) ps.
Proof.
  intros H.
  destruct (respond_page_cases s query spec page limit start cat)
    as [[e He] | [m [Hm Hs]]]; [congruence |].
  rewrite (respond_page_ok _ _ _ _ _ _ _ _ Hm Hs) in H.
  injection H as _ _ _ _ _ <-.
  apply Sorted_fmap with (R1 := sort_le spec).
  - by intros [k p] [k' p'].
  - apply Sorted_page_window, Sorted_merge_sort, _.
Qed.

Lemma paging_exact (page limit : Z) :
  1 <= page -> 1 <= limit -> page * limit < 2 ^ 53 ->
  JS.mul (JS.sub page 1) limit = (page - 1) * limit
  /\ JS.mul limit 1 = limit
  /\ JS.add ((page - 1) * limit) limit = (page - 1) * limit + limit
  /\ JS.sub page 1 = page - 1.
Proof.
  intros Hp Hl Hpl.
  assert (Hb : 0 <= (page - 1) * limit < page * limit) by nia.
  assert (Hp' : page <= page * limit) by nia.
  assert (Hl' : limit <= page * limit) by nia.
  rewrite (sub_safe page 1) by safe_lia.
  rewrite (mul_safe (page - 1) limit) by safe_lia.
  rewrite (mul_safe limit 1) by safe_lia.
  rewrite (add_safe ((page - 1) * limit) limit) by safe_lia.
  repeat split; lia.
Qed.

End Listing.

Section Paging.

Variable regex_i : string -> option (string -> bool).

(** The window a valid request gets, when its filter is accepted. *)
Lemma list_posts_window (s : Store) (q : ReqQuery) (m : Post -> bool) :
  paging_valid q ->
  matches regex_i (list_query q) = Ok m ->
  let page := JS.parseInt_or (q_page q) 1 in
  let limit := JS.parseInt_or (q_limit q) 10 in
  let startIndex := (page - 1) * limit in
  let found := List.filter (fun d => m d.2) (map_to_list (posts s)) in
  let total := Z.of_nat (length found) in
  exists pg ps,
    list_posts regex_i s q
    = Json 200 (Page (Z.of_nat (length ps)) total pg None ps)
    /\ ps = populate s <$>
            take (Z.to_nat limit)
                 (drop (Z.to_nat startIndex)
                       (sort_docs (sort_option (q_sortBy q)) found))
    /\ Z.of_nat (length ps) = Z.min limit (Z.max 0 (total - startIndex))
    /\ (startIndex <= total -> startIndex + Z.of_nat (length ps) <= total)
    /\ (total < startIndex -> length ps = 0%nat)
    /\ (is_Some (prev pg) <-> 1 < page)
    /\ (is_Some (prev pg) <-> 0 < startIndex)
    /\ (is_Some (next pg) <-> startIndex + limit < total).
Proof.
  intros (Hp & Hl & Hpl) Hm page limit startIndex found total.
  destruct (paging_exact page limit Hp Hl Hpl) as (E1 & E2 & E3 & E4).
  assert (Hs : 0 <= startIndex) by (unfold startIndex; nia).
  unfold list_posts. fold page limit. rewrite E1. fold startIndex.
  rewrite (respond_page_ok regex_i s _ _ page limit startIndex None m Hm Hs).
  fold found total. rewrite E2.
  set (docs := page_window limit startIndex
                 (sort_docs (sort_option (q_sortBy q)) found)).
  assert (Hlen : Z.of_nat (length (populate s <$> docs))
                 = Z.min limit (Z.max 0 (total - startIndex))).
  { rewrite length_fmap. unfold docs.
    rewrite length_page_window by lia.
    unfold sort_docs.
    by rewrite (Permutation_length (merge_sort_Permutation _ found)). }
  exists (pagination_of page limit startIndex total), (populate s <$> docs).
  split; [reflexivity |]. split.
  { unfold docs, page_window.
    destruct (Z.eqb_spec limit 0) as [H0 | _]; [lia |].
    by rewrite (Z.abs_eq limit) by lia. }
  split; [exact Hlen |].
  split; [lia |]. split; [lia |].
  unfold pagination_of. simpl. fold startIndex in E3. rewrite E3.
  destruct (Z.ltb_spec 0 startIndex) as [Hpos | Hnpos];
    destruct (Z.ltb_spec (startIndex + limit) total) as [Hmore | Hlast];
    repeat split; intros Hx; eauto; try (by destruct Hx); nia.
Qed.

(** C3, amended: for valid page and limit (integers from 1 on, their
    product a safe integer) the listing forwards the error when the server
    rejects the filter, and otherwise skips [startIndex = (page-1)*limit] of
    the matching posts, in sort order, and returns the next [limit] of
    them; the number returned is [min limit (max 0 (total - startIndex))],
    so that [startIndex + returned <= total] whenever [startIndex <= total]
    (a page past the end returns none); [prev] is present iff [page > 1],
    iff [startIndex > 0]; [next] is present iff
    [startIndex + limit < total]. *)
Theorem list_posts_paging (s : Store) (q : ReqQuery) :
  paging_valid q ->
  let page := JS.parseInt_or (q_page q) 1 in
  let limit := JS.parseInt_or (q_limit q) 10 in
  let startIndex := (page - 1) * limit in
  match matches regex_i (list_query q) with
  | Throw e => list_posts regex_i s q = Next e
  | Ok m =>
      let found := List.filter (fun d => m d.2) (map_to_list (posts s)) in
      let total := Z.of_nat (length found) in
      exists pg ps,
        list_posts regex_i s q
        = Json 200 (Page (Z.of_nat (length ps)) total pg None ps)
        /\ ps = populate s <$>
                take (Z.to_nat limit)
                     (drop (Z.to_nat startIndex)
                           (sort_docs (sort_option (q_sortBy q)) found))
        /\ Z.of_nat (length ps) = Z.min limit (Z.max 0 (total - startIndex))
        /\ (startIndex <= total ->
            startIndex + Z.of_nat (length ps) <= total)
        /\ (total < startIndex -> length ps = 0%nat)
        /\ (is_Some (prev pg) <-> 1 < page)
        /\ (is_Some (prev pg) <-> 0 < startIndex)
        /\ (is_Some (next pg) <-> startIndex + limit < total)
  end.
Proof.
  intros Hv page limit startIndex.
  destruct (matches regex_i (list_query q)) as [m | e] eqn:Hm.
  - by apply list_posts_window.
  - unfold list_posts, respond_page, countDocuments, matching.
    by rewrite Hm.
Qed.

End Paging.

(** The second page of a collection of one post: valid paging, nothing
    returned, a [prev] cursor. *)
Lemma list_posts_paging_witness :
  exists pg ps,
    list_posts Sample.no_regex Sample.one_post
               (Sample.with_page "2" Sample.no_query)
    = Json 200 (Page (Z.of_nat (length ps)) 1 pg None ps)
    /\ ps = [] /\ is_Some (prev pg) /\ next pg = None.
Proof.
  pose proof (list_posts_paging Sample.no_regex Sample.one_post
                (Sample.with_page "2" Sample.no_query)
                ltac:(vm_compute; repeat split; congruence)) as H.
  hnf in H. destruct H as (pg & ps & H1 & H2 & H3 & H4 & H5 & H6 & H7 & H8).
  exists pg, ps. split; [exact H1 |].
  assert (Hps : ps = []).
  { apply length_zero_iff_nil, H5. vm_compute. reflexivity. }
  split; [exact Hps |]. split.
  - apply H6. vm_compute. reflexivity.
  - destruct (next pg) as [c |]; [exfalso | reflexivity].
    assert (Hs : is_Some (Some c)) by eauto.
    apply H8 in Hs. vm_compute in Hs. discriminate.
Defined.

(** C3 fails as stated: on the second page of a collection of one post
    [startIndex] is 10, nothing is returned, and [10 + 0 <= 1] is false. *)
Lemma paging_past_the_end :
  ~ paging_as_specified Sample.no_regex Sample.one_post
      (Sample.with_page "2" Sample.no_query).
Proof.
  intros H.
  assert (Hv : paging_valid (Sample.with_page "2" Sample.no_query))
    by (vm_compute; repeat split; congruence).
  destruct (H Hv 0 1 {| next := None;
                        prev := Some {| page := 1; limit := 10 |} |} None [])
    as [Hle _].
  - vm_compute. reflexivity.
  - vm_compute in Hle. congruence.
Qed.

(** ** The order of the public listing *)

Lemma Sorted_mono {A} (R R' : relation A) (l : list A) :
  (forall x y, R x y -> R' x y) -> Sorted R l -> Sorted R' l.
Proof.
  intros HR H. induction H as [| x l Hs IH Hd]; constructor; auto.
  destruct Hd; constructor; auto.
Qed.

Lemma view_le_createdAt_desc (a b : PostView) :
  view_le newest a b <-> createdAt (view_post b) <= createdAt (view_post a).
Proof.
  unfold view_le, sort_le, sort_leb, Z.le. simpl.
  destruct (createdAt (view_post b) ?= createdAt (view_post a)); simpl;
    intuition congruence.
Qed.

Lemma view_le_createdAt_asc (a b : PostView) :
  view_le {| sort_field := ByCreatedAt; sort_dir := Asc |} a b
  <-> createdAt (view_post a) <= createdAt (view_post b).
Proof.
  unfold view_le, sort_le, sort_leb, Z.le. simpl.
  destruct (createdAt (view_post a) ?= createdAt (view_post b)); simpl;
    intuition congruence.
Qed.

Lemma view_le_viewCount_desc (a b : PostView) :
  view_le {| sort_field := ByViewCount; sort_dir := Desc |} a b
  <-> viewCount (view_post b) <= viewCount (view_post a).
Proof.
  unfold view_le, sort_le, sort_leb, Z.le. simpl.
  destruct (viewCount (view_post b) ?= viewCount (view_post a)); simpl;
    intuition congruence.
Qed.

Lemma view_le_title_asc (a b : PostView) :
  view_le {| sort_field := ByTitle; sort_dir := Asc |} a b
  <-> String.compare (title (view_post a)) (title (view_post b)) <> Gt.
Proof.
  unfold view_le, sort_le, sort_leb. simpl.
  destruct (String.compare (title (view_post a)) (title (view_post b)));
    simpl; intuition congruence.
Qed.

Lemma sort_option_default (p : option string) :
  p <> Some "oldest" -> p <> Some "popular" -> p <> Some "mostLiked" ->
  p <> Some "title" -> sort_option p = newest.
Proof.
  intros H1 H2 H3 H4. unfold sort_option.
  destruct p as [v |]; simpl; [| reflexivity].
  destruct (String.eqb_spec v "") as [-> | _]; [reflexivity |].
  repeat match goal with
         | |- context [String.eqb v ?c] =>
             destruct (String.eqb_spec v c) as [-> | _]; [congruence |]
         end.
  reflexivity.
Qed.

Section Order.

Variable regex_i : string -> option (string -> bool).

Lemma list_posts_sorted s q st c t pg cat ps :
  list_posts regex_i s q = Json st (Page c t pg cat ps) ->
  Sorted (view_le (sort_option (q_sortBy q))) ps.
Proof. apply respond_page_sorted. Qed.

(** The sort options that do what their names say: [oldest] is creation
    ascending, [popular] view count descending, [title] title ascending
    (in the binary order of strings), and any value other than the four
    names, or none, is creation descending. *)
Lemma list_posts_order s q st c t pg cat ps :
  list_posts regex_i s q = Json st (Page c t pg cat ps) ->
  (q_sortBy q = Some "oldest" ->
   Sorted (fun a b => createdAt (view_post a) <= createdAt (view_post b)) ps)
  /\ (q_sortBy q = Some "popular" ->
      Sorted (fun a b => viewCount (view_post b) <= viewCount (view_post a))
             ps)
  /\ (q_sortBy q = Some "title" ->
      Sorted (fun a b => String.compare (title (view_post a))
                                        (title (view_post b)) <> Gt) ps)
  /\ (q_sortBy q <> Some "oldest" -> q_sortBy q <> Some "popular" ->
      q_sortBy q <> Some "mostLiked" -> q_sortBy q <> Some "title" ->
      Sorted (fun a b => createdAt (view_post b) <= createdAt (view_post a))
             ps).
Proof.
  intros H. apply list_posts_sorted in H.
  repeat split.
  - intros E. rewrite E in H.
    eapply Sorted_mono; [| exact H]. intros a b. apply view_le_createdAt_asc.
  - intros E. rewrite E in H.
    eapply Sorted_mono; [| exact H]. intros a b. apply view_le_viewCount_desc.
  - intros E. rewrite E in H.
    eapply Sorted_mono; [| exact H]. intros a b. apply view_le_title_asc.
  - intros E1 E2 E3 E4. rewrite sort_option_default in H by assumption.
    eapply Sorted_mono; [| exact H]. intros a b. apply view_le_createdAt_desc.
Qed.

End Order.

(** C2 at the failing input: with [sortBy=mostLiked] the handler sorts by
    the field [likes], which the server orders by the greatest entry of each
    array; the post with one like is listed before the post with two. *)
Theorem mostLiked_lists_fewer_likes_first :
  exists pg v1 v2,
    list_posts Sample.no_regex Sample.two_posts
               (Sample.with_sortBy "mostLiked" Sample.no_query)
    = Json 200 (Page 2 2 pg None [v1; v2])
    /\ view_id v1 = Sample.post2 /\ length (likes (view_post v1)) = 1%nat
    /\ view_id v2 = Sample.post1 /\ length (likes (view_post v2)) = 2%nat.
Proof.
  eexists _, _, _. split; [vm_compute; reflexivity |].
  repeat split.
Qed.

(** ** GET /my/posts *)

Lemma Forall_filter {A} (f : A -> bool) (l : list A) :
  Forall (fun x => f x = true) (List.filter f l).
Proof.
  apply List.Forall_forall. intros x Hx.
  apply filter_In in Hx as [_ Hx]. exact Hx.
Qed.

Lemma Forall_page_window (P : ObjectId * Post -> Prop) n k l :
  Forall P l -> Forall P (page_window n k l).
Proof.
  intros H. unfold page_window.
  destruct (n =? 0); auto using Forall_take, Forall_drop.
Qed.

Section MyPosts.

Variable regex_i : string -> option (string -> bool).

Lemma matches_my_query (u : ReqUser) (q : ReqQuery) (m : Post -> bool) :
  matches regex_i (my_query u q) = Ok m ->
  exists a, cast_oid (user_id u) = Ok a
            /\ forall p, m p = my_filter a (JS.truthy (q_status q)) p.
Proof.
  unfold matches, my_query, when, my_filter.
  destruct (JS.truthy (q_status q)) as [x |]; simpl;
    destruct (cast_oid (user_id u)) as [a | e]; simpl; intros H;
    try discriminate; injection H as <-; exists a; split; auto;
    intros p; by rewrite !andb_true_r.
Qed.

(** The posts GET /my/posts sends are posts of the caller, of the
    requested status, newest first, and the total counts the posts of that
    author and status. *)
Lemma my_posts_page_sound (s : Store) (u : ReqUser) (q q' : ReqQuery) :
  q_page q = q_page q' -> q_limit q = q_limit q' ->
  q_status q = q_status q' ->
  my_posts regex_i s u q = my_posts regex_i s u q'
  /\ forall st c t pg cat ps,
      my_posts regex_i s u q = Json st (Page c t pg cat ps) ->
      exists a,
        cast_oid (user_id u) = Ok a
        /\ t = Z.of_nat (length (List.filter
                 (fun d => my_filter a (JS.truthy (q_status q)) d.2)
                 (map_to_list (posts s))))
        /\ Forall (fun v => author (view_post v) = a
                            /\ forall x, JS.truthy (q_status q) = Some x ->
                                         status (view_post v) = x) ps
        /\ Sorted (fun v w => createdAt (view_post w)
                              <= createdAt (view_post v)) ps.
Proof.
  intros Hp Hl Hs. split.
  { unfold my_posts, my_query. by rewrite Hp, Hl, Hs. }
  intros st c t pg cat ps H.
  assert (Hsorted := respond_page_sorted _ _ _ _ _ _ _ _ _ _ _ _ _ _ H).
  unfold my_posts in H.
  match type of H with
  | respond_page _ _ ?qq ?sp ?pp ?ll ?ss ?cc = _ =>
      destruct (respond_page_cases regex_i s qq sp pp ll ss cc)
        as [[e He] | [m [Hm Hge]]]; [congruence |];
      rewrite (respond_page_ok regex_i s qq sp pp ll ss cc m Hm Hge) in H
  end.
  destruct (matches_my_query u q m Hm) as (a & Ha & Hma).
  injection H as _ _ <- _ _ <-.
  exists a. split; [exact Ha |]. split; [| split].
  - f_equal. f_equal. apply filter_ext_in. intros d _. apply Hma.
  - apply Forall_fmap, Forall_page_window.
    unfold sort_docs. rewrite merge_sort_Permutation.
    eapply Forall_impl; [apply Forall_filter |].
    intros [k p]. simpl. rewrite Hma. unfold my_filter.
    intros Hf. apply andb_true_iff in Hf as [Hst Hau].
    apply String.eqb_eq in Hau. split; [exact Hau |].
    intros x Hx. rewrite Hx in Hst. by apply String.eqb_eq in Hst.
  - eapply Sorted_mono; [| exact Hsorted].
    intros v w. apply view_le_createdAt_desc.
Qed.

Lemma matches_my_query_cast (u : ReqUser) (q : ReqQuery) :
  match cast_oid (user_id u) with
  | Throw e => matches regex_i (my_query u q) = Throw e
  | Ok a =>
      exists m, matches regex_i (my_query u q) = Ok m
                /\ forall p, m p = my_filter a (JS.truthy (q_status q)) p
  end.
Proof.
  unfold matches, my_query, when, my_filter.
  destruct (JS.truthy (q_status q)) as [x |]; cbn;
    destruct (cast_oid (user_id u)) as [a | e]; cbn; try reflexivity;
    eexists; (split; [reflexivity |]); intros p; cbn;
    by rewrite ?andb_true_r.
Qed.

(** C10: GET /my/posts reads only [page], [limit] and [status] of the
    query string, so [category], [tags], [search], [sortBy] (and
    [author]) have no effect on the response.  The response is the page of
    the posts whose author is the caller and whose status is the requested
    one, when one is given, in order of creation time descending: [total]
    is the number of these posts, the posts sent are those that follow the
    first [startIndex] of them, [limit] at most, and [count] is their
    number. *)
Theorem my_posts_ignores_filters (s : Store) (u : ReqUser) (q q' : ReqQuery) :
  q_page q = q_page q' -> q_limit q = q_limit q' ->
  q_status q = q_status q' ->
  my_posts regex_i s u q = my_posts regex_i s u q'
  /\ (forall st c t pg cat ps,
        my_posts regex_i s u q = Json st (Page c t pg cat ps) ->
        exists a,
          cast_oid (user_id u) = Ok a
          /\ t = Z.of_nat (length (List.filter
                   (fun d => my_filter a (JS.truthy (q_status q)) d.2)
                   (map_to_list (posts s))))
          /\ Forall (fun v => author (view_post v) = a
                              /\ forall x, JS.truthy (q_status q) = Some x ->
                                           status (view_post v) = x) ps
          /\ Sorted (fun v w => createdAt (view_post w)
                                <= createdAt (view_post v)) ps)
  /\ (let page := JS.parseInt_or (q_page q) 1 in
      let limit := JS.parseInt_or (q_limit q) 10 in
      let startIndex := JS.mul (JS.sub page 1) limit in
      match cast_oid (user_id u) with
      | Throw e => my_posts regex_i s u q = Next e
      | Ok a =>
          let found :=
            List.filter (fun d => my_filter a (JS.truthy (q_status q)) d.2)
                        (map_to_list (posts s)) in
          let total := Z.of_nat (length found) in
          let sorted := sort_docs newest found in
          (startIndex < 0 -> my_posts regex_i s u q = Next MongoServerError)
          /\ (0 <= startIndex ->
              exists ps,
                my_posts regex_i s u q
                = Json 200 (Page (Z.of_nat (length ps)) total
                                 (pagination_of page limit startIndex total)
                                 None ps)
                /\ ps = populate s <$>
                        page_window (JS.mul limit 1) startIndex sorted
                /\ (paging_valid q ->
                    startIndex = (page - 1) * limit
                    /\ ps = populate s <$>
                            take (Z.to_nat limit)
                                 (drop (Z.to_nat ((page - 1) * limit)) sorted)
                    /\ Z.of_nat (length ps)
                       = Z.min limit (Z.max 0 (total - (page - 1) * limit))))
      end).
Proof.
  intros Hp Hl Hs.
  destruct (my_posts_page_sound s u q q' Hp Hl Hs) as [H1 H2].
  split; [exact H1 |]. split; [exact H2 |].
  intros page limit startIndex.
  pose proof (matches_my_query_cast u q) as Hm.
  destruct (cast_oid (user_id u)) as [a | e].
  - destruct Hm as (m & Hm & Hext).
    assert (Hfilter :
      List.filter (fun d : ObjectId * Post => m d.2) (map_to_list (posts s))
      = List.filter (fun d => my_filter a (JS.truthy (q_status q)) d.2)
                    (map_to_list (posts s))).
    { apply filter_ext_in. intros d _. apply Hext. }
    intros found total sorted. split.
    + intros Hneg. unfold my_posts, respond_page, countDocuments, find,
        matching. fold page limit startIndex. rewrite Hm. cbn.
      destruct (Z.ltb_spec startIndex 0); [reflexivity | lia].
    + intros Hpos. eexists. split; [| split; [reflexivity |]].
      * unfold my_posts. fold page limit startIndex.
        rewrite (respond_page_ok regex_i s _ _ page limit startIndex None m
                   Hm Hpos).
        cbv zeta. rewrite Hfilter. reflexivity.
      * intros (Hv1 & Hv2 & Hv3). fold page limit in Hv1, Hv2, Hv3.
        destruct (paging_exact page limit Hv1 Hv2 Hv3) as (E1 & E2 & _).
        subst startIndex. rewrite E1, E2.
        split; [reflexivity |]. split.
        -- unfold page_window.
           destruct (Z.eqb_spec limit 0) as [H0 | _]; [lia |].
           by rewrite (Z.abs_eq limit) by lia.
        -- rewrite length_fmap, length_page_window by nia.
           unfold sorted, sort_docs.
           by rewrite (Permutation_length (merge_sort_Permutation _ found)).
  - unfold my_posts, respond_page, countDocuments, matching.
    by rewrite Hm.
Qed.

End MyPosts.

(** Two requests of alice that differ in [sortBy], [category], [tags] and
    [search] get the same page, which holds her two posts. *)
Lemma my_posts_ignores_filters_witness :
  my_posts Sample.no_regex Sample.two_posts (Sample.as_user Sample.alice)
           Sample.no_query
  = my_posts Sample.no_regex Sample.two_posts (Sample.as_user Sample.alice)
      {| q_page := None; q_limit := None; q_category := Some "cooking";
         q_tags := Some "a,b"; q_search := Some "x"; q_author := None;
         q_sortBy := Some "oldest"; q_status := None |}
  /\ exists pg ps,
      my_posts Sample.no_regex Sample.two_posts (Sample.as_user Sample.alice)
               Sample.no_query
      = Json 200 (Page 2 2 pg None ps)
      /\ view_id <$> ps = [Sample.post1; Sample.post2].
Proof.
  destruct (my_posts_ignores_filters Sample.no_regex Sample.two_posts
              (Sample.as_user Sample.alice) Sample.no_query
              {| q_page := None; q_limit := None;
                 q_category := Some "cooking"; q_tags := Some "a,b";
                 q_search := Some "x"; q_author := None;
                 q_sortBy := Some "oldest"; q_status := None |}
              eq_refl eq_refl eq_refl) as (H1 & _ & H3).
  split; [exact H1 |].
  hnf in H3. destruct H3 as [_ H3].
  destruct (H3 ltac:(vm_compute; congruence)) as (ps & Hr & Hps & _).
  eexists _, ps. split.
  - rewrite Hr, Hps. vm_compute. reflexivity.
  - rewrite Hps. vm_compute. reflexivity.
Defined.

(** ** GET /:id *)

Lemma get_post_published s user rid k p :
  cast_oid rid = Ok k -> posts s !! k = Some p -> status p = "published" ->
  let p' := set_viewCount (JS.add (viewCount p) 1) p in
  get_post s user rid
  = (Json 200 (OnePost None (Some (populate s (k, p')))), save k p' s).
Proof.
  intros Hc Hp Hst. unfold get_post.
  rewrite (findById_found s rid k p Hc Hp). simpl. rewrite Hst. reflexivity.
Qed.

Lemma get_post_success s user rid k p b s' :
  cast_oid rid = Ok k -> posts s !! k = Some p ->
  get_post s user rid = (Json 200 b, s') ->
  let p' := set_viewCount (JS.add (viewCount p) 1) p in
  b = OnePost None (Some (populate s (k, p'))) /\ s' = save k p' s
  /\ (status p = "published"
      \/ exists u, user = Some u /\ user_id u = author p).
Proof.
  intros Hc Hp. unfold get_post.
  rewrite (findById_found s rid k p Hc Hp). simpl.
  destruct (String.eqb_spec (status p) "published") as [Hst | Hst]; simpl.
  - intros H. injection H as <- <-. auto.
  - destruct user as [u |]; [| discriminate].
    destruct (users s !! author p); [| discriminate].
    destruct (String.eqb_spec (user_id u) (author p)) as [Hu | Hu]; simpl;
      [| discriminate].
    intros H. injection H as <- <-. repeat split. right. eauto.
Qed.

(** C4: a post that is not published is answered with 404 "Post not
    found", the store unchanged, to every caller who is not its author:
    anonymous, or authenticated under another identity whatever the role
    (the author reference resolving to a user, as the data model has it);
    the post is sent to its author, and to anyone when it is published, and
    to nobody else. *)
Theorem get_post_visibility (s : Store) (user : option ReqUser)
    (rid k : string) (p : Post) :
  cast_oid rid = Ok k -> posts s !! k = Some p ->
  (status p <> "published" ->
   (user = None -> get_post s user rid = (Json 404 (Fail "Post not found"), s))
   /\ (forall u, user = Some u -> user_id u <> author p ->
                 is_Some (users s !! author p) ->
                 get_post s user rid = (Json 404 (Fail "Post not found"), s)))
  /\ (forall u, user = Some u -> user_id u = author p ->
                is_Some (users s !! author p) ->
                exists v s', get_post s user rid
                             = (Json 200 (OnePost None (Some v)), s')
                             /\ view_id v = k)
  /\ (status p = "published" ->
      exists v s', get_post s user rid = (Json 200 (OnePost None (Some v)), s')
                   /\ view_id v = k)
  /\ (forall b s', get_post s user rid = (Json 200 b, s') ->
                   status p = "published"
                   \/ exists u, user = Some u /\ user_id u = author p).
Proof.
  intros Hc Hp. repeat split.
  - intros ->. unfold get_post.
    rewrite (findById_found s rid k p Hc Hp). simpl.
    by destruct (String.eqb_spec (status p) "published").
  - intros u -> Hu [a Ha]. unfold get_post.
    rewrite (findById_found s rid k p Hc Hp). simpl. rewrite Ha.
    destruct (String.eqb_spec (status p) "published"); [done |]. simpl.
    by destruct (String.eqb_spec (user_id u) (author p)).
  - intros u -> Hu [a Ha]. unfold get_post.
    rewrite (findById_found s rid k p Hc Hp). simpl. rewrite Ha.
    destruct (String.eqb_spec (status p) "published"); simpl;
      [eauto |].
    destruct (String.eqb_spec (user_id u) (author p)); [| done]. simpl. eauto.
  - intros Hst. rewrite (get_post_published s user rid k p Hc Hp Hst). eauto.
  - intros b s' H.
    by destruct (get_post_success s user rid k p b s' Hc Hp H) as (_ & _ & ?).
Qed.

(** An admin who is not the author asks for a draft: 404, nothing changes. *)
Lemma get_post_visibility_witness :
  get_post Sample.a_draft (Some (Sample.as_admin Sample.bob)) Sample.post1
  = (Json 404 (Fail "Post not found"), Sample.a_draft).
Proof.
  destruct (get_post_visibility Sample.a_draft
              (Some (Sample.as_admin Sample.bob)) Sample.post1 Sample.post1
              Sample.the_draft eq_refl eq_refl) as [H _].
  apply (proj2 (H ltac:(vm_compute; congruence)) (Sample.as_admin Sample.bob));
    [reflexivity | vm_compute; congruence | vm_compute; eauto].
Defined.

Lemma set_viewCount_twice (v w : Z) (p : Post) :
  set_viewCount v (set_viewCount w p) = set_viewCount v p.
Proof. reflexivity. Qed.

Lemma success_cons (o : Outcome) (os : list Outcome) :
  Forall success (o :: os) -> success o /\ Forall success os.
Proof. intros H. by inversion H. Qed.

Lemma set_viewCount_same (p : Post) : set_viewCount (viewCount p) p = p.
Proof. by destruct p. Qed.

Lemma fetch_all_success (s : Store) (rid k : string) (p : Post)
    (callers : list (option ReqUser)) :
  cast_oid rid = Ok k -> posts s !! k = Some p ->
  JS.safe (viewCount p) ->
  JS.safe (viewCount p + Z.of_nat (length callers)) ->
  Forall success (fetch_all s rid callers).1 ->
  (fetch_all s rid callers).2
  = save k (set_viewCount (viewCount p + Z.of_nat (length callers)) p) s.
Proof.
  intros Hc. revert s p.
  induction callers as [| c cs IH]; intros s p Hp Hlo Hhi Hall.
  - simpl. rewrite Z.add_0_r, set_viewCount_same. symmetry.
    by apply save_same.
  - cbn [fetch_all length] in *.
    destruct (get_post s c rid) as [o s1] eqn:Hg.
    destruct (fetch_all s1 rid cs) as [os s2] eqn:Hf.
    cbn [fst snd] in *.
    apply success_cons in Hall as [[b ->] Hos].
    destruct (get_post_success s c rid k p b s1 Hc Hp Hg) as (_ & -> & _).
    rewrite add_safe in Hf by safe_lia.
    pose proof (IH (save k (set_viewCount (viewCount p + 1) p) s)
                   (set_viewCount (viewCount p + 1) p)
                   (save_lookup _ _ _)) as IH'.
    rewrite Hf in IH'. cbn [fst snd viewCount set_viewCount] in IH'.
    rewrite IH' by (try exact Hos; safe_lia).
    rewrite save_save, set_viewCount_twice. do 2 f_equal. lia.
Qed.

Lemma fetch_all_published (s : Store) (rid k : string) (p : Post)
    (callers : list (option ReqUser)) :
  cast_oid rid = Ok k -> posts s !! k = Some p -> status p = "published" ->
  Forall success (fetch_all s rid callers).1.
Proof.
  intros Hc. revert s p.
  induction callers as [| c cs IH]; intros s p Hp Hst; cbn [fetch_all].
  - constructor.
  - rewrite (get_post_published s c rid k p Hc Hp Hst).
    pose proof (IH (save k (set_viewCount (JS.add (viewCount p) 1) p) s)
                   (set_viewCount (JS.add (viewCount p) 1) p)
                   (save_lookup _ _ _) Hst) as IH'.
    destruct (fetch_all _ rid cs) as [os s2]. cbn [fst] in *.
    constructor; [by eexists | exact IH'].
Qed.

(** C5: every successful fetch of a post stores its view counter
    incremented by exactly 1, whoever the caller is, and changes nothing
    else; a run of N successful fetches, each by any caller, adds exactly
    N.  Every fetch of a published post is successful.  (The counter is a
    safe integer before and after.) *)
Theorem get_post_counts_views (s : Store) (rid k : string) (p : Post)
    (callers : list (option ReqUser)) :
  cast_oid rid = Ok k -> posts s !! k = Some p ->
  JS.safe (viewCount p) ->
  JS.safe (viewCount p + Z.of_nat (length callers)) ->
  let n := Z.of_nat (length callers) in
  let s' := (fetch_all s rid callers).2 in
  (Forall success (fetch_all s rid callers).1 ->
   s' = save k (set_viewCount (viewCount p + n) p) s
   /\ (exists p', posts s' !! k = Some p'
                  /\ viewCount p' = viewCount p + n)
   /\ (forall k', k' <> k -> posts s' !! k' = posts s !! k')
   /\ users s' = users s)
  /\ (status p = "published" -> Forall success (fetch_all s rid callers).1).
Proof.
  intros Hc Hp Hlo Hhi n s'. split.
  - intros Hall. subst s'.
    rewrite (fetch_all_success s rid k p callers Hc Hp Hlo Hhi Hall).
    fold n. repeat split.
    + eexists. split; [apply save_lookup | reflexivity].
    + intros k' Hk. by apply save_lookup_ne.
  - intros Hst. by apply (fetch_all_published s rid k p).
Qed.

(** Three fetches of a published post, by its author, by an admin and by
    nobody in particular: the counter goes from 0 to 3. *)
Lemma get_post_counts_views_witness :
  exists p', posts (fetch_all Sample.one_post Sample.post1
                      [Some (Sample.as_user Sample.alice);
                       Some (Sample.as_admin Sample.bob); None]).2
             !! Sample.post1 = Some p'
             /\ viewCount p' = 3.
Proof.
  destruct (get_post_counts_views Sample.one_post Sample.post1 Sample.post1
              Sample.the_post
              [Some (Sample.as_user Sample.alice);
               Some (Sample.as_admin Sample.bob); None]
              eq_refl eq_refl ltac:(vm_compute; reflexivity)
              ltac:(vm_compute; reflexivity)) as [H1 H2].
  destruct (H1 (H2 eq_refl)) as (_ & Hv & _).
  exact Hv.
Defined.

(** ** Scanning an array *)

Section Scan.

Context {A : Type} (f : A -> bool).

Lemma findIndex_none (l : list A) :
  Forall (fun x => f x = false) l -> JS.findIndex f l = None.
Proof.
  induction 1 as [| x l Hx _ IH]; simpl; [reflexivity |].
  by rewrite Hx, IH.
Qed.

Lemma findIndex_first (before after : list A) (c : A) :
  Forall (fun x => f x = false) before -> f c = true ->
  JS.findIndex f (before ++ c :: after) = Some (length before).
Proof.
  intros Hb Hc. induction Hb as [| x l Hx _ IH]; simpl.
  - by rewrite Hc.
  - by rewrite Hx, IH.
Qed.

Lemma find_none (l : list A) :
  Forall (fun x => f x = false) l -> List.find f l = None.
Proof.
  induction 1 as [| x l Hx _ IH]; simpl; [reflexivity |].
  by rewrite Hx.
Qed.

Lemma find_first (before after : list A) (c : A) :
  Forall (fun x => f x = false) before -> f c = true ->
  List.find f (before ++ c :: after) = Some c.
Proof.
  intros Hb Hc. induction Hb as [| x l Hx _ IH]; simpl.
  - by rewrite Hc.
  - by rewrite Hx.
Qed.

(** An array either has no element that [f] accepts, or splits at the
    first one. *)
Lemma scan_cases (l : list A) :
  Forall (fun x => f x = false) l
  \/ exists before c after,
      l = before ++ c :: after /\ f c = true
      /\ Forall (fun x => f x = false) before.
Proof.
  induction l as [| x l IH]; [by left |].
  destruct (f x) eqn:Hx.
  - right. exists [], x, l. by repeat split.
  - destruct IH as [IH | (before & c & after & -> & Hc & Hb)].
    + left. by constructor.
    + right. exists (x :: before), c, after. repeat split; auto.
Qed.

Lemma splice1_middle (before after : list A) (c : A) :
  JS.splice1 (length before) (before ++ c :: after) = before ++ after.
Proof.
  unfold JS.splice1. induction before as [| x l IH]; simpl.
  - by rewrite drop_0.
  - by rewrite IH.
Qed.

End Scan.

(** ** PUT /:id, DELETE /:id and DELETE /:id/comments/:commentId *)

Section Mutations.

Variable validate_update : PostBody -> bool.

(** C8: on an existing post, a caller who is neither the author nor an
    admin gets 401 "Not authorized" from PUT /:id and from DELETE /:id and
    the store is unchanged; for the author and for an admin the handler
    goes on to the operation: DELETE removes the post, PUT answers with
    the outcome of the update, which is applied when the update casts and
    validates. *)
Theorem owner_or_admin_only (s : Store) (u : ReqUser) (rid k : string)
    (p : Post) (body : PostBody) :
  cast_oid rid = Ok k -> posts s !! k = Some p ->
  (user_id u <> author p -> user_role u <> "admin" ->
   update_post validate_update s u rid body
   = (Json 401 (Fail "Not authorized to update this post"), s)
   /\ delete_post s u rid
      = (Json 401 (Fail "Not authorized to delete this post"), s))
  /\ (user_id u = author p \/ user_role u = "admin" ->
      delete_post s u rid
      = (Json 200 (Done "Post deleted successfully"),
         set_posts (delete k (posts s)) s)
      /\ update_post validate_update s u rid body
         = match findByIdAndUpdate validate_update rid body s with
           | Throw e => (Next e, s)
           | Ok (s', post) =>
               (Json 200 (OnePost (Some "Post updated successfully")
                                  (populate s' <$> post)), s')
           end
      /\ forall a, cast_opt (b_author body) = Ok a ->
                   validate_update body = true ->
                   let p' := apply_update body a p in
                   update_post validate_update s u rid body
                   = (Json 200 (OnePost (Some "Post updated successfully")
                                  (Some (populate (save k p' s) (k, p')))),
                      save k p' s)).
Proof.
  intros Hc Hp.
  assert (Hno : user_id u <> author p -> user_role u <> "admin" ->
                not_owner_nor_admin u p = true).
  { intros H1 H2. unfold not_owner_nor_admin.
    destruct (String.eqb_spec (author p) (user_id u)); [congruence |].
    by destruct (String.eqb_spec (user_role u) "admin"). }
  assert (Hyes : user_id u = author p \/ user_role u = "admin" ->
                 not_owner_nor_admin u p = false).
  { unfold not_owner_nor_admin.
    destruct (String.eqb_spec (author p) (user_id u)); [done |].
    destruct (String.eqb_spec (user_role u) "admin"); [done |].
    intros [? | ?]; congruence. }
  split.
  - intros H1 H2. unfold update_post, delete_post.
    rewrite (findById_found s rid k p Hc Hp). simpl.
    by rewrite (Hno H1 H2).
  - intros H. unfold update_post, delete_post.
    rewrite (findById_found s rid k p Hc Hp). simpl.
    rewrite (Hyes H). repeat split.
    + unfold findByIdAndDelete. by rewrite Hc.
    + intros a Ha Hv. unfold findByIdAndUpdate.
      rewrite Hc. simpl. rewrite Ha. simpl. by rewrite Hv, Hp.
Qed.

End Mutations.

(** C9: on an existing post, deleting a comment whose identifier no
    comment of the post has is answered with 404 "Comment not found" and
    changes nothing; otherwise, [c] being the first comment with that
    identifier, the request succeeds when the caller is the author of [c],
    the author of the post or an admin, and then exactly the entry [c] is
    removed from the comments and nothing else changes; any other caller
    gets 401 "Not authorized" and nothing changes. *)
Theorem delete_comment_cases (s : Store) (u : ReqUser) (rid k cid : string)
    (p : Post) :
  cast_oid rid = Ok k -> posts s !! k = Some p ->
  (Forall (fun c => comment_id c <> cid) (comments p) ->
   delete_comment s u rid cid = (Json 404 (Fail "Comment not found"), s))
  /\ (forall before c after,
        comments p = before ++ c :: after -> comment_id c = cid ->
        Forall (fun c' => comment_id c' <> cid) before ->
        (comment_user c = user_id u \/ author p = user_id u
         \/ user_role u = "admin" ->
         delete_comment s u rid cid
         = (Json 200 (Done "Comment deleted successfully"),
            save k (set_comments (before ++ after) p) s))
        /\ (comment_user c <> user_id u -> author p <> user_id u ->
            user_role u <> "admin" ->
            delete_comment s u rid cid
            = (Json 401 (Fail "Not authorized to delete this comment"), s))).
Proof.
  intros Hc Hp.
  assert (Hneq : forall l, Forall (fun c => comment_id c <> cid) l ->
                 Forall (fun c => String.eqb (comment_id c) cid = false) l).
  { intros l Hl. eapply Forall_impl; [exact Hl |].
    intros c Hx. by apply String.eqb_neq. }
  split.
  - intros Hnone. unfold delete_comment.
    rewrite (findById_found s rid k p Hc Hp). simpl.
    by rewrite (find_none _ _ (Hneq _ Hnone)).
  - intros before c after Hsplit Hid Hbefore.
    apply Hneq in Hbefore. apply String.eqb_eq in Hid.
    unfold delete_comment.
    rewrite (findById_found s rid k p Hc Hp). simpl.
    rewrite Hsplit.
    rewrite (find_first _ before after c Hbefore Hid).
    rewrite (findIndex_first _ before after c Hbefore Hid). simpl.
    rewrite splice1_middle.
    destruct (String.eqb_spec (comment_user c) (user_id u)) as [H1 | H1];
      destruct (String.eqb_spec (author p) (user_id u)) as [H2 | H2];
      destruct (String.eqb_spec (user_role u) "admin") as [H3 | H3];
      simpl; split; try done; intros; try congruence; intuition congruence.
Qed.

(** Bob, who neither wrote alice's post nor is an admin, is refused both
    operations. *)
Lemma owner_or_admin_only_witness :
  update_post Sample.accept_update Sample.one_post (Sample.as_user Sample.bob)
              Sample.post1 Sample.an_edit
  = (Json 401 (Fail "Not authorized to update this post"), Sample.one_post)
  /\ delete_post Sample.one_post (Sample.as_user Sample.bob) Sample.post1
     = (Json 401 (Fail "Not authorized to delete this post"), Sample.one_post).
Proof.
  apply (proj1 (owner_or_admin_only Sample.accept_update Sample.one_post
                  (Sample.as_user Sample.bob) Sample.post1 Sample.post1
                  Sample.the_post
                  Sample.an_edit eq_refl eq_refl));
    vm_compute; congruence.
Defined.

(** Bob deletes his own comment on alice's post: carol's comment stays. *)
Lemma delete_comment_cases_witness :
  delete_comment Sample.commented (Sample.as_user Sample.bob) Sample.post1
                 Sample.comment1
  = (Json 200 (Done "Comment deleted successfully"),
     save Sample.post1
          (set_comments [Sample.a_comment Sample.comment2 Sample.carol]
                        Sample.the_commented)
          Sample.commented).
Proof.
  apply (proj1 (proj2 (delete_comment_cases Sample.commented
                         (Sample.as_user Sample.bob) Sample.post1
                         Sample.post1 Sample.comment1 Sample.the_commented
                         eq_refl eq_refl)
                 [] (Sample.a_comment Sample.comment1 Sample.bob)
                 [Sample.a_comment Sample.comment2 Sample.carol]
                 eq_refl eq_refl ltac:(constructor))).
  left. reflexivity.
Defined.

(** ** PUT /:id/like *)

Lemma set_likes_twice (l l' : list Like) (p : Post) :
  set_likes l (set_likes l' p) = set_likes l p.
Proof. reflexivity. Qed.

Lemma set_likes_same (p : Post) : set_likes (likes p) p = p.
Proof. by destruct p. Qed.

Lemma not_liked_eqb (uid : string) (l : list Like) :
  Forall (fun x => like_user x <> uid) l ->
  Forall (fun x => String.eqb (like_user x) uid = false) l.
Proof.
  intros H. eapply Forall_impl; [exact H |].
  intros x Hx. by apply String.eqb_neq.
Qed.

(** The toggle on a post the caller has not liked: a like is prepended. *)
Lemma like_post_like now s u rid k p :
  cast_oid rid = Ok k -> posts s !! k = Some p ->
  Forall (fun x => like_user x <> user_id u) (likes p) ->
  like_post now s u rid
  = (Json 200 (LikeResult "Post liked successfully" true
                          (Z.of_nat (S (length (likes p))))),
     save k (set_likes ({| like_user := user_id u; like_createdAt := now |}
                          :: likes p) p) s).
Proof.
  intros Hc Hp Hn. unfold like_post.
  rewrite (findById_found s rid k p Hc Hp). simpl.
  by rewrite (findIndex_none _ _ (not_liked_eqb _ _ Hn)).
Qed.

(** The toggle on a post the caller has liked: the first like of the
    caller is removed. *)
Lemma like_post_unlike now s u rid k p before x after :
  cast_oid rid = Ok k -> posts s !! k = Some p ->
  likes p = before ++ x :: after -> like_user x = user_id u ->
  Forall (fun y => like_user y <> user_id u) before ->
  like_post now s u rid
  = (Json 200 (LikeResult "Post unliked successfully" false
                          (Z.of_nat (length (before ++ after)))),
     save k (set_likes (before ++ after) p) s).
Proof.
  intros Hc Hp Hsplit Hx Hb. unfold like_post.
  rewrite (findById_found s rid k p Hc Hp). simpl. rewrite Hsplit.
  apply String.eqb_eq in Hx.
  rewrite (findIndex_first _ before after x (not_liked_eqb _ _ Hb) Hx).
  by rewrite splice1_middle.
Qed.

Lemma filter_nil_Forall {A} (f : A -> bool) (l : list A) :
  List.filter f l = [] -> Forall (fun x => f x = false) l.
Proof.
  induction l as [| x l IH]; cbn; [constructor |].
  destruct (f x) eqn:Hx; [discriminate |]. auto.
Qed.

Lemma Forall_filter_nil {A} (f : A -> bool) (l : list A) :
  Forall (fun x => f x = false) l -> List.filter f l = [].
Proof.
  induction 1 as [| x l Hx _ IH]; cbn; [reflexivity |]. by rewrite Hx.
Qed.

(** A like list in which a user has exactly one entry splits at that
    entry, with none of the user's before or after. *)
Lemma likes_of_user_one (uid : ObjectId) (l : list Like) :
  likes_of_user uid l = 1%nat ->
  exists before x after,
    l = before ++ x :: after /\ like_user x = uid
    /\ Forall (fun y => like_user y <> uid) before
    /\ Forall (fun y => like_user y <> uid) after.
Proof.
  unfold likes_of_user. intros H.
  destruct (scan_cases (fun x => String.eqb (like_user x) uid) l)
    as [Hnone | (before & x & after & -> & Hx & Hb)].
  - by rewrite (Forall_filter_nil _ _ Hnone) in H.
  - rewrite List.filter_app in H. cbn in H.
    rewrite (Forall_filter_nil _ _ Hb), Hx in H. cbn in H.
    injection H as H. apply length_zero_iff_nil, filter_nil_Forall in H.
    exists before, x, after. split; [reflexivity |].
    split; [by apply String.eqb_eq |].
    split; (eapply Forall_impl; [eassumption |]);
      intros y; apply String.eqb_neq.
Qed.

(** C6, amended: two toggles in a row by the same user, who has at most
    one entry in the like list of the post.  If the user had not liked the
    post, the first answers [liked: true] with the count one higher, the
    second [liked: false] with the original count, and the store is what it
    was.  If the user had liked it, with one entry, the first answers
    [liked: false], the second [liked: true], and the like list ends with
    the same length and the same users.  Other users may have any number
    of entries. *)
Theorem like_toggle_twice (now1 now2 : Z) (s : Store) (u : ReqUser)
    (rid k : string) (p : Post) :
  cast_oid rid = Ok k -> posts s !! k = Some p ->
  let n := Z.of_nat (length (likes p)) in
  let r1 := like_post now1 s u rid in
  let r2 := like_post now2 r1.2 u rid in
  (Forall (fun x => like_user x <> user_id u) (likes p) ->
   r1.1 = Json 200 (LikeResult "Post liked successfully" true (n + 1))
   /\ r2.1 = Json 200 (LikeResult "Post unliked successfully" false n)
   /\ r2.2 = s)
  /\ (likes_of_user (user_id u) (likes p) = 1%nat ->
      r1.1 = Json 200 (LikeResult "Post unliked successfully" false (n - 1))
      /\ r2.1 = Json 200 (LikeResult "Post liked successfully" true n)
      /\ exists l2,
          r2.2 = save k (set_likes l2 p) s
          /\ length l2 = length (likes p)
          /\ forall x, x ∈ like_user <$> l2 <-> x ∈ like_user <$> likes p).
Proof.
  intros Hc Hp n r1 r2. split.
  - intros Hn. subst r2 r1.
    rewrite (like_post_like now1 s u rid k p Hc Hp Hn). cbn [fst snd].
    set (new := {| like_user := user_id u; like_createdAt := now1 |}).
    rewrite (like_post_unlike now2 _ u rid k (set_likes (new :: likes p) p)
               [] new (likes p)
               Hc (save_lookup _ _ _) eq_refl eq_refl ltac:(constructor)).
    cbn [fst snd app]. repeat split.
    + do 3 f_equal. subst n. lia.
    + rewrite save_save, set_likes_twice, set_likes_same. by apply save_same.
  - intros Hone.
    destruct (likes_of_user_one _ _ Hone)
      as (before & x & after & Hsplit & Hx & Hb' & Ha').
    assert (Hrest : Forall (fun y => like_user y <> user_id u)
                           (before ++ after)).
    { apply Forall_app. by split. }
    subst r2 r1.
    rewrite (like_post_unlike now1 s u rid k p before x after
               Hc Hp Hsplit Hx Hb'). cbn [fst snd].
    rewrite (like_post_like now2 _ u rid k (set_likes (before ++ after) p)
               Hc (save_lookup _ _ _) Hrest).
    cbn [fst snd likes set_likes]. subst n. rewrite Hsplit.
    rewrite !length_app. cbn [length]. repeat split.
    + do 3 f_equal. lia.
    + do 3 f_equal. lia.
    + eexists. split; [by rewrite save_save, set_likes_twice |].
      split; [cbn [length]; rewrite length_app; lia |].
      intros y. rewrite !fmap_cons, !fmap_app, !fmap_cons. cbn [like_user].
      rewrite !elem_of_cons, !elem_of_app, !elem_of_cons. rewrite Hx.
      tauto.
Qed.

(** C6 fails as stated: bob has two entries in the like list of a post;
    each of his two toggles finds one and removes it, both answer
    [liked: false], and the list goes from two likes to none. *)
Lemma toggle_twice_with_two_likes :
  ~ toggle_twice_as_specified 5 9 Doubled.store (Sample.as_user Sample.bob)
      Sample.post1.
Proof.
  intros H.
  destruct (H Sample.post1 Doubled.the_post eq_refl eq_refl)
    as [_ (p2 & Hp2 & Hlen & _)].
  vm_compute in Hp2. injection Hp2 as <-. discriminate Hlen.
Qed.

(** Bob likes alice's post, which nobody has liked, and takes the like
    back: the store is what it was. *)
Lemma like_toggle_twice_witness :
  (like_post 5 Sample.one_post (Sample.as_user Sample.bob) Sample.post1).1
  = Json 200 (LikeResult "Post liked successfully" true 1)
  /\ (like_post 9
        (like_post 5 Sample.one_post (Sample.as_user Sample.bob)
                   Sample.post1).2
        (Sample.as_user Sample.bob) Sample.post1).1
     = Json 200 (LikeResult "Post unliked successfully" false 0)
  /\ (like_post 9
        (like_post 5 Sample.one_post (Sample.as_user Sample.bob)
                   Sample.post1).2
        (Sample.as_user Sample.bob) Sample.post1).2
     = Sample.one_post.
Proof.
  apply (proj1 (like_toggle_twice 5 9 Sample.one_post
                  (Sample.as_user Sample.bob) Sample.post1 Sample.post1
                  Sample.the_post
                  eq_refl eq_refl)).
  constructor.
Defined.

(** ** One like per user *)

Lemma findIndex_None_Forall {A} (f : A -> bool) (l : list A) :
  JS.findIndex f l = None -> Forall (fun x => f x = false) l.
Proof.
  induction l as [| x l IH]; simpl; [constructor |].
  destruct (f x) eqn:Hx; [discriminate |].
  destruct (JS.findIndex f l); [discriminate |]. auto.
Qed.

Lemma findById_inv (rid : string) (s : Store) (d : ObjectId * Post) :
  findById rid s = Ok (Some d) -> posts s !! d.1 = Some d.2.
Proof.
  unfold findById. destruct (cast_oid rid) as [k | e]; simpl; [| discriminate].
  destruct (posts s !! k) as [p |] eqn:Hp; simpl; [| discriminate].
  intros H. injection H as <-. exact Hp.
Qed.

Lemma like_inv_save (s : Store) (k : string) (p : Post) :
  like_inv s -> likes_unique p -> like_inv (save k p s).
Proof.
  intros Hs Hp k' p' H. unfold save in H. simpl in H.
  apply lookup_insert_Some in H as [[_ <-] | [_ H]]; eauto.
Qed.

Lemma like_inv_delete (s : Store) (k : string) :
  like_inv s -> like_inv (set_posts (delete k (posts s)) s).
Proof.
  intros Hs k' p' H. simpl in H.
  apply lookup_delete_Some in H as [_ H]. eauto.
Qed.

Lemma likes_unique_splice1 (p : Post) (i : nat) :
  likes_unique p -> NoDup (like_user <$> JS.splice1 i (likes p)).
Proof.
  unfold likes_unique, JS.splice1. intros H.
  rewrite <- delete_take_drop.
  eapply sublist_NoDup; [exact H |].
  apply fmap_sublist, sublist_delete.
Qed.

Section Invariant.

Variable regex_i : string -> option (string -> bool).
Variable default_status : string.
Variable validate_doc : Post -> bool.
Variable validate_update : PostBody -> bool.

Lemma create_inv fresh now b s s' k :
  create default_status validate_doc fresh now b s = Ok (s', k) ->
  exists p, s' = save k p s /\ likes p = default [] (b_likes b).
Proof.
  unfold create.
  destruct (cast_opt (b_author b)) as [a | e]; simpl; [| discriminate].
  destruct (b_title b) as [t |]; [| discriminate].
  destruct (b_content b) as [c |]; [| discriminate].
  destruct a as [a' |]; [| discriminate].
  destruct (validate_doc _); [| discriminate].
  destruct (posts s !! fresh); [discriminate |].
  intros H. injection H as <- <-. eauto.
Qed.

Lemma findByIdAndUpdate_inv rid b s s' post :
  findByIdAndUpdate validate_update rid b s = Ok (s', post) ->
  s' = s
  \/ exists k p a, posts s !! k = Some p /\ s' = save k (apply_update b a p) s.
Proof.
  unfold findByIdAndUpdate.
  destruct (cast_oid rid) as [k | e]; simpl; [| discriminate].
  destruct (cast_opt (b_author b)) as [a | e]; simpl; [| discriminate].
  destruct (validate_update b); [| discriminate].
  destruct (posts s !! k) as [p |] eqn:Hp; intros H; injection H as <- _;
    eauto 6.
Qed.

(** The operations of the router keep the like lists free of duplicates
    (listings, fetch, like toggle, comment add and delete, delete), and so
    do create and update when the body sets no like list that names a user
    twice; a body without [likes] is such a body. *)
Lemma like_inv_preserved (s : Store) (r : Request) :
  like_inv s -> payload_ok r ->
  like_inv (handle regex_i default_status validate_doc validate_update s r).2.
Proof.
  intros Hs Hr.
  destruct r as [q | u q | user rid | fresh now u body | u rid body
                 | u rid | now u rid | fresh now u rid content
                 | u rid cid | cat q]; cbn [handle snd];
    try exact Hs.
  - (* GET /:id *)
    unfold get_post.
    destruct (findById rid s) as [[d |] | e] eqn:Hf; try exact Hs.
    apply findById_inv in Hf.
    repeat match goal with
           | |- context [match ?x with _ => _ end] => destruct x
           end; try exact Hs.
    apply like_inv_save; [exact Hs |]. exact (Hs _ _ Hf).
  - (* POST / *)
    unfold create_post.
    destruct (create _ _ _ _ _ _) as [[s' k] | e] eqn:Hcr; try exact Hs.
    apply create_inv in Hcr as (p & -> & Hl). cbn [snd].
    apply like_inv_save; [exact Hs |].
    unfold likes_unique. rewrite Hl.
    unfold payload_ok, likes_payload_ok in Hr. simpl.
    destruct (b_likes body); simpl; [exact Hr | constructor].
  - (* PUT /:id *)
    unfold update_post.
    destruct (findById rid s) as [[d |] | e] eqn:Hf; try exact Hs.
    destruct (not_owner_nor_admin u d.2); try exact Hs.
    destruct (findByIdAndUpdate _ _ _ _) as [[s' post] | e] eqn:Hup;
      try exact Hs.
    apply findByIdAndUpdate_inv in Hup
      as [-> | (k & p & a & Hp & ->)]; cbn [snd]; [exact Hs |].
    apply like_inv_save; [exact Hs |].
    unfold likes_unique. unfold payload_ok, likes_payload_ok in Hr. simpl.
    destruct (b_likes body); simpl; [exact Hr | exact (Hs _ _ Hp)].
  - (* DELETE /:id *)
    unfold delete_post, findByIdAndDelete.
    destruct (findById rid s) as [[d |] | e] eqn:Hf; try exact Hs.
    destruct (not_owner_nor_admin u d.2); try exact Hs.
    destruct (cast_oid rid) as [k | e]; simpl; try exact Hs.
    by apply like_inv_delete.
  - (* PUT /:id/like *)
    unfold like_post.
    destruct (findById rid s) as [[d |] | e] eqn:Hf; try exact Hs.
    apply findById_inv in Hf. pose proof (Hs _ _ Hf) as Hd.
    destruct (JS.findIndex _ (likes d.2)) as [i |] eqn:Hi; cbn [snd];
      apply like_inv_save; try exact Hs; unfold likes_unique; simpl.
    + by apply likes_unique_splice1.
    + apply NoDup_cons. split; [| exact Hd].
      apply findIndex_None_Forall in Hi. rewrite Forall_forall in Hi.
      intros Hin. apply list_elem_of_fmap in Hin as (x & Hx & Hin).
      specialize (Hi x Hin). apply String.eqb_neq in Hi. congruence.
  - (* POST /:id/comments *)
    unfold add_comment.
    destruct (findById rid s) as [[d |] | e] eqn:Hf; try exact Hs.
    apply findById_inv in Hf. pose proof (Hs _ _ Hf) as Hd.
    assert (like_inv (save d.1 (set_comments
             ({| comment_id := fresh; comment_user := user_id u;
                 comment_content := content; comment_createdAt := now |}
                :: comments d.2) d.2) s))
      by (by apply like_inv_save).
    by repeat match goal with
              | |- context [match ?x with _ => _ end] => destruct x
              end.
  - (* DELETE /:id/comments/:commentId *)
    unfold delete_comment.
    destruct (findById rid s) as [[d |] | e] eqn:Hf; try exact Hs.
    apply findById_inv in Hf. pose proof (Hs _ _ Hf) as Hd.
    repeat match goal with
           | |- context [match ?x with _ => _ end] => destruct x
           end; try exact Hs; by apply like_inv_save.
Qed.

End Invariant.

Lemma like_inv_one_post : like_inv Sample.one_post.
Proof.
  intros k p H. unfold Sample.one_post in H. simpl in H.
  apply lookup_insert_Some in H as [[_ <-] | [_ H]].
  - constructor.
  - by rewrite lookup_empty in H.
Qed.

(** C7 at the failing input: in a store where no like list names a user
    twice, alice updates her post with a body whose [likes] names bob
    twice; the handler passes the body on to the update, the response is
    200, and the stored like list names bob twice. *)
Theorem update_post_stores_duplicate_likes :
  like_inv Sample.one_post
  /\ exists b s' p',
      handle Sample.no_regex Sample.a_status Sample.accept_doc
             Sample.accept_update Sample.one_post
             (PUT_post (Sample.as_user Sample.alice) Sample.post1
                (Sample.with_likes [Sample.like_of Sample.bob 1;
                                    Sample.like_of Sample.bob 2]
                                   Sample.an_edit))
      = (Json 200 b, s')
      /\ posts s' !! Sample.post1 = Some p'
      /\ like_user <$> likes p' = [Sample.bob; Sample.bob]
      /\ ~ likes_unique p'.
Proof.
  split; [exact like_inv_one_post |].
  eexists _, _, _. split; [vm_compute; reflexivity |].
  split; [vm_compute; reflexivity |].
  split; [reflexivity |].
  unfold likes_unique. simpl. intros H.
  apply NoDup_cons in H as [Hn _]. apply Hn. constructor.
Qed.

(** ** The author of a post under PUT /:id *)

Lemma apply_update_author (b : PostBody) (a : option ObjectId) (p : Post) :
  author (apply_update b a p) = default (author p) a.
Proof. reflexivity. Qed.

(** An update whose body has no [author] leaves the author as it is. *)
Lemma update_post_keeps_author validate_update s u rid body st m v s' :
  b_author body = None ->
  update_post validate_update s u rid body
  = (Json st (OnePost m (Some v)), s') ->
  exists p, posts s !! view_id v = Some p
            /\ posts s' !! view_id v = Some (view_post v)
            /\ author (view_post v) = author p.
Proof.
  intros Hb. unfold update_post, findByIdAndUpdate.
  destruct (findById rid s) as [[d |] | e] eqn:Hf; try discriminate.
  destruct (not_owner_nor_admin u d.2); [discriminate |].
  destruct (cast_oid rid) as [k | e]; simpl; [| discriminate].
  rewrite Hb. simpl.
  destruct (validate_update body); [| discriminate].
  destruct (posts s !! k) as [p |] eqn:Hp; [| discriminate].
  intros H. injection H as _ _ <- <-.
  exists p. cbn [populate view_id view_post fst snd].
  by rewrite save_lookup.
Qed.

(** An update whose body has an [author], sent by the author or by an
    admin and accepted by the validators, stores that author. *)
Lemma update_post_sets_author validate_update s u rid k p body x a :
  cast_oid rid = Ok k -> posts s !! k = Some p ->
  user_id u = author p \/ user_role u = "admin" ->
  b_author body = Some x -> cast_oid x = Ok a ->
  validate_update body = true ->
  exists v s',
    update_post validate_update s u rid body
    = (Json 200 (OnePost (Some "Post updated successfully") (Some v)), s')
    /\ posts s' !! k = Some (view_post v)
    /\ author (view_post v) = a.
Proof.
  intros Hc Hp Hu Hb Hx Hv. unfold update_post, findByIdAndUpdate.
  rewrite (findById_found s rid k p Hc Hp). cbn [snd].
  assert (Hgate : not_owner_nor_admin u p = false).
  { unfold not_owner_nor_admin.
    destruct (String.eqb_spec (author p) (user_id u)); [done |].
    destruct (String.eqb_spec (user_role u) "admin"); [done |].
    destruct Hu; congruence. }
  rewrite Hgate, Hc. simpl. rewrite Hb. simpl. rewrite Hx. simpl.
  rewrite Hv, Hp. eexists _, _. split; [reflexivity |].
  cbn [populate view_id view_post fst snd]. by rewrite save_lookup.
Qed.

(** C1 at the failing input: alice, the author of a post, sends PUT /:id
    with a body whose [author] is bob's identifier; the handler passes the
    body on to the update, and the stored post has bob for author. *)
Theorem update_post_reassigns_author :
  exists v s',
    update_post Sample.accept_update Sample.one_post
                (Sample.as_user Sample.alice) Sample.post1
                (Sample.with_author Sample.bob Sample.an_edit)
    = (Json 200 (OnePost (Some "Post updated successfully") (Some v)), s')
    /\ author <$> posts Sample.one_post !! Sample.post1 = Some Sample.alice
    /\ author <$> posts s' !! Sample.post1 = Some Sample.bob
    /\ author (view_post v) = Sample.bob.
Proof.
  eexists _, _. split; [vm_compute; reflexivity |].
  repeat split; vm_compute; reflexivity.
Qed.

(** * Further properties of the router *)

(** ** The listings: filters, defaults and bounds *)

Section Filters.

Variable regex_i : string -> option (string -> bool).

(** What a page response of [respond_page] is made of. *)
Lemma respond_page_inv s query spec page limit start cat st c t pg cat' ps :
  respond_page regex_i s query spec page limit start cat
  = Json st (Page c t pg cat' ps) ->
  exists m,
    matches regex_i query = Ok m /\ 0 <= start /\ st = 200 /\ cat' = cat
    /\ t = Z.of_nat (length (List.filter (fun d => m d.2)
                                          (map_to_list (posts s))))
    /\ ps = populate s <$>
            page_window (JS.mul limit 1) start
              (sort_docs spec (List.filter (fun d => m d.2)
                                           (map_to_list (posts s))))
    /\ c = Z.of_nat (length ps)
    /\ pg = pagination_of page limit start t.
Proof.
  intros H.
  destruct (respond_page_cases regex_i s query spec page limit start cat)
    as [[e He] | [m [Hm Hs]]]; [congruence |].
  rewrite (respond_page_ok regex_i _ _ _ _ _ _ _ _ Hm Hs) in H.
  injection H as <- <- <- <- <- <-. exists m. by repeat split.
Qed.

(** Every post of a page satisfies the predicate of the filter. *)
Lemma respond_page_matches s query spec page limit start cat st c t pg cat'
    ps m :
  respond_page regex_i s query spec page limit start cat
  = Json st (Page c t pg cat' ps) ->
  matches regex_i query = Ok m ->
  Forall (fun v => m (view_post v) = true
                   /\ posts s !! view_id v = Some (view_post v)) ps.
Proof.
  intros H Hm. apply respond_page_inv in H as (m' & Hm' & _ & _ & _ & _ & -> & _).
  assert (m' = m) as -> by congruence.
  apply Forall_fmap, Forall_page_window.
  unfold sort_docs. rewrite merge_sort_Permutation.
  apply List.Forall_forall. intros [k p] Hin.
  apply filter_In in Hin as [Hin Hmp]. split; [exact Hmp |].
  cbn [populate view_id view_post fst snd].
  apply list_elem_of_In in Hin. by apply elem_of_map_to_list in Hin.
Qed.

(** The query object of GET /, field by field. *)
Lemma list_query_fields (q : ReqQuery) :
  list_query q
  = {| f_status := Some "published";
       f_category := JS.truthy (q_category q);
       f_tags := JS.split_comma <$> JS.truthy (q_tags q);
       f_or := JS.truthy (q_search q);
       f_author := JS.truthy (q_author q) |}.
Proof.
  unfold list_query, when.
  by destruct (JS.truthy (q_category q)), (JS.truthy (q_tags q)),
       (JS.truthy (q_search q)), (JS.truthy (q_author q)).
Qed.

Lemma compile_opt_Some (x : string) (rx : option (string -> bool)) :
  compile_opt regex_i (Some x) = Ok rx ->
  exists r, rx = Some r /\ regex_i x = Some r.
Proof.
  unfold compile_opt. destruct (regex_i x) as [r |]; [| discriminate].
  intros H. injection H as <-. eauto.
Qed.

Lemma matches_list_query (q : ReqQuery) (m : Post -> bool) (p : Post) :
  matches regex_i (list_query q) = Ok m -> m p = true ->
  status p = "published"
  /\ category_ok regex_i (q_category q) p
  /\ tags_ok (q_tags q) p
  /\ search_ok regex_i (q_search q) p
  /\ author_ok (q_author q) p.
Proof.
  rewrite list_query_fields. unfold matches. cbn [f_status f_category f_tags
    f_or f_author].
  destruct (cast_opt (JS.truthy (q_author q))) as [a |] eqn:Ha;
    [| discriminate]. cbn.
  destruct (compile_opt regex_i (JS.truthy (q_category q))) as [c |] eqn:Hc;
    [| discriminate]. cbn.
  destruct (compile_opt regex_i (JS.truthy (q_search q))) as [o |] eqn:Ho;
    [| discriminate]. cbn.
  intros Hm. injection Hm as <-. intros Hp.
  apply andb_true_iff in Hp as [Hp H5]. apply andb_true_iff in Hp as [Hp H4].
  apply andb_true_iff in Hp as [Hp H3]. apply andb_true_iff in Hp as [H1 H2].
  split; [by apply String.eqb_eq |]. split; [| split; [| split]].
  - intros v Hv. rewrite Hv in Hc.
    apply compile_opt_Some in Hc as (rx & -> & Hrx).
    destruct (category p) as [x |]; [| discriminate]. by exists rx, x.
  - intros v Hv. rewrite Hv in H3. cbn in H3.
    apply existsb_exists in H3 as (x & Hx & H3).
    apply existsb_exists in H3 as (y & Hy & H3).
    apply String.eqb_eq in H3. subst y.
    exists x. split; by apply list_elem_of_In.
  - intros v Hv. rewrite Hv in Ho.
    apply compile_opt_Some in Ho as (rx & -> & Hrx).
    exists rx. split; [exact Hrx |]. by apply orb_true_iff.
  - intros v Hv. rewrite Hv in Ha. cbn in Ha.
    destruct (cast_oid v) as [k |]; [| discriminate].
    injection Ha as <-. f_equal. symmetry. by apply String.eqb_eq.
Qed.

(** X1: whatever the query string, every post GET / returns is a stored
    post that is published and passes each filter the request gives: its
    category matches the pattern, one of its tags is among the
    comma-separated [tags], its title or its content matches [search], and
    its author is [author]. *)
Theorem list_posts_filters (s : Store) (q : ReqQuery) st c t pg cat ps :
  list_posts regex_i s q = Json st (Page c t pg cat ps) ->
  Forall (fun v =>
            posts s !! view_id v = Some (view_post v)
            /\ status (view_post v) = "published"
            /\ category_ok regex_i (q_category q) (view_post v)
            /\ tags_ok (q_tags q) (view_post v)
            /\ search_ok regex_i (q_search q) (view_post v)
            /\ author_ok (q_author q) (view_post v)) ps.
Proof.
  intros H. unfold list_posts in H.
  pose proof H as H'.
  apply respond_page_inv in H' as (m & Hm & _).
  eapply Forall_impl; [exact (respond_page_matches _ _ _ _ _ _ _ _ _ _ _ _ _ _ H Hm) |].
  intros v [Hv Hin]. split; [exact Hin |].
  exact (matches_list_query q m (view_post v) Hm Hv).
Qed.

(** X2: GET /category/:category reads only [page] and [limit] of the
    query string; every post it returns is a stored, published post whose
    category matches the pattern of the path, the posts come newest first,
    and the response repeats the category of the path. *)
Theorem category_posts_page (s : Store) (cname : string)
    (q q' : ReqQuery) :
  q_page q = q_page q' -> q_limit q = q_limit q' ->
  category_posts regex_i s cname q = category_posts regex_i s cname q'
  /\ forall st c t pg cat ps,
      category_posts regex_i s cname q = Json st (Page c t pg cat ps) ->
      cat = Some cname
      /\ Forall (fun v =>
                   posts s !! view_id v = Some (view_post v)
                   /\ status (view_post v) = "published"
                   /\ exists rx x, regex_i cname = Some rx
                                   /\ category (view_post v) = Some x
                                   /\ rx x = true) ps
      /\ Sorted (fun v w => createdAt (view_post w)
                            <= createdAt (view_post v)) ps.
Proof.
  intros Hp Hl. split.
  { unfold category_posts. by rewrite Hp, Hl. }
  intros st c t pg cat ps H.
  assert (Hsorted := respond_page_sorted _ _ _ _ _ _ _ _ _ _ _ _ _ _ H).
  unfold category_posts in H. pose proof H as H'.
  apply respond_page_inv in H' as (m & Hm & _ & _ & -> & _).
  split; [reflexivity |]. split.
  - eapply Forall_impl;
      [exact (respond_page_matches _ _ _ _ _ _ _ _ _ _ _ _ _ _ H Hm) |].
    intros v [Hv Hin]. split; [exact Hin |].
    revert Hm Hv. unfold matches. cbn.
    destruct (regex_i cname) as [rx |]; [| discriminate]. cbn.
    intros Hm Hv. injection Hm as <-.
    rewrite !andb_true_r in Hv. apply andb_true_iff in Hv as [H1 H2].
    split; [by apply String.eqb_eq |].
    destruct (category (view_post v)) as [x |]; [| discriminate].
    by exists rx, x.
  - eapply Sorted_mono; [| exact Hsorted].
    intros v w. apply view_le_createdAt_desc.
Qed.

(** X3: a [page] that is absent, not a number or zero is page 1, and a
    [limit] that is absent, not a number or zero is 10: the three listings
    answer such a request as they answer the one with the default written
    out. *)
Theorem paging_defaults (s : Store) (u : ReqUser) (cname : string)
    (q : ReqQuery) :
  (JS.parseInt (q_page q) = None \/ JS.parseInt (q_page q) = Some 0 ->
   list_posts regex_i s q = list_posts regex_i s (set_q_page (Some "1") q)
   /\ my_posts regex_i s u q = my_posts regex_i s u (set_q_page (Some "1") q)
   /\ category_posts regex_i s cname q
      = category_posts regex_i s cname (set_q_page (Some "1") q))
  /\ (JS.parseInt (q_limit q) = None \/ JS.parseInt (q_limit q) = Some 0 ->
      list_posts regex_i s q = list_posts regex_i s (set_q_limit (Some "10") q)
      /\ my_posts regex_i s u q
         = my_posts regex_i s u (set_q_limit (Some "10") q)
      /\ category_posts regex_i s cname q
         = category_posts regex_i s cname (set_q_limit (Some "10") q)).
Proof.
  split; intros H.
  - assert (Hd : JS.parseInt_or (q_page q) 1 = 1)
      by (unfold JS.parseInt_or; destruct H as [-> | ->]; reflexivity).
    unfold list_posts, my_posts, category_posts.
    cbn [q_page q_limit set_q_page]. rewrite Hd.
    change (JS.parseInt_or (Some "1") 1) with 1. repeat split.
  - assert (Hd : JS.parseInt_or (q_limit q) 10 = 10)
      by (unfold JS.parseInt_or; destruct H as [-> | ->]; reflexivity).
    unfold list_posts, my_posts, category_posts.
    cbn [q_page q_limit set_q_limit]. rewrite Hd.
    change (JS.parseInt_or (Some "10") 10) with 10. repeat split.
Qed.

(** X4: a negative [page] (with a limit from 1 on, the product a safe
    integer) makes [startIndex] negative; the server rejects the negative
    skip and the three listings forward an error instead of sending a
    page. *)
Theorem negative_page_is_an_error (s : Store) (u : ReqUser)
    (cname : string) (q : ReqQuery) :
  JS.parseInt_or (q_page q) 1 < 0 -> 1 <= JS.parseInt_or (q_limit q) 10 ->
  (1 - JS.parseInt_or (q_page q) 1) * JS.parseInt_or (q_limit q) 10 < 2 ^ 53 ->
  (exists e, list_posts regex_i s q = Next e)
  /\ (exists e, my_posts regex_i s u q = Next e)
  /\ (exists e, category_posts regex_i s cname q = Next e).
Proof.
  intros Hp Hl Hs.
  set (page := JS.parseInt_or (q_page q) 1) in *.
  set (limit := JS.parseInt_or (q_limit q) 10) in *.
  assert (Hb : page - 1 < 0 /\ (page - 1) * limit < 0
               /\ - ((page - 1) * limit) < 2 ^ 53
               /\ 1 - page <= (1 - page) * limit) by nia.
  assert (Hstart : JS.mul (JS.sub page 1) limit < 0).
  { rewrite (sub_safe page 1) by safe_lia.
    rewrite (mul_safe (page - 1) limit) by safe_lia. lia. }
  assert (Hneg : forall query spec cat,
             exists e, respond_page regex_i s query spec page limit
                         (JS.mul (JS.sub page 1) limit) cat = Next e).
  { intros query spec cat.
    destruct (respond_page_cases regex_i s query spec page limit
                (JS.mul (JS.sub page 1) limit) cat)
      as [He | (m & _ & Hge)]; [exact He | lia]. }
  unfold list_posts, my_posts, category_posts. fold page limit.
  repeat split; apply Hneg.
Qed.

(** X5: a page never holds more posts than the filter matches
    ([count <= total]), and [total] depends on the filter parameters only:
    requests that differ in [page], [limit] or [sortBy] report the same
    total. *)
Theorem list_posts_total (s : Store) (q q' : ReqQuery) st c t pg cat ps
    st' c' t' pg' cat' ps' :
  q_category q = q_category q' -> q_tags q = q_tags q' ->
  q_search q = q_search q' -> q_author q = q_author q' ->
  list_posts regex_i s q = Json st (Page c t pg cat ps) ->
  list_posts regex_i s q' = Json st' (Page c' t' pg' cat' ps') ->
  c <= t /\ c' <= t' /\ t' = t /\ c = Z.of_nat (length ps).
Proof.
  intros H1 H2 H3 H4 H H'. unfold list_posts in *.
  assert (Hq : list_query q' = list_query q)
    by (rewrite !list_query_fields; by rewrite H1, H2, H3, H4).
  rewrite Hq in H'.
  apply respond_page_inv in H as (m & Hm & _ & _ & _ & -> & -> & -> & _).
  apply respond_page_inv in H' as (m' & Hm' & _ & _ & _ & -> & -> & -> & _).
  assert (m' = m) as -> by congruence.
  assert (Hle : forall n k (l : list (ObjectId * Post)),
             (length (page_window n k l) <= length l)%nat).
  { intros n k l. unfold page_window.
    destruct (n =? 0); rewrite ?length_take, length_drop; lia. }
  rewrite !length_fmap. repeat split.
  - pose proof (Hle (JS.mul (JS.parseInt_or (q_limit q) 10) 1)
                  (JS.mul (JS.sub (JS.parseInt_or (q_page q) 1) 1)
                          (JS.parseInt_or (q_limit q) 10))
                  (sort_docs (sort_option (q_sortBy q))
                     (List.filter (fun d => m d.2) (map_to_list (posts s)))))
      as Hx.
    unfold sort_docs in Hx at 2.
    rewrite (Permutation_length (merge_sort_Permutation _ _)) in Hx. lia.
  - pose proof (Hle (JS.mul (JS.parseInt_or (q_limit q') 10) 1)
                  (JS.mul (JS.sub (JS.parseInt_or (q_page q') 1) 1)
                          (JS.parseInt_or (q_limit q') 10))
                  (sort_docs (sort_option (q_sortBy q'))
                     (List.filter (fun d => m d.2) (map_to_list (posts s)))))
      as Hx.
    unfold sort_docs in Hx at 2.
    rewrite (Permutation_length (merge_sort_Permutation _ _)) in Hx. lia.
Qed.

End Filters.

(** Posts tagged rocq or baking: both published posts, not the draft. *)
Lemma list_posts_filters_witness :
  exists c t pg ps,
    list_posts Blog.exact Blog.store (Blog.by_tags "rocq,baking")
    = Json 200 (Page c t pg None ps)
    /\ length ps = 2%nat
    /\ Forall (fun v =>
                 posts Blog.store !! view_id v = Some (view_post v)
                 /\ status (view_post v) = "published"
                 /\ category_ok Blog.exact None (view_post v)
                 /\ tags_ok (Some "rocq,baking") (view_post v)
                 /\ search_ok Blog.exact None (view_post v)
                 /\ author_ok None (view_post v)) ps.
Proof.
  eexists _, _, _, _. split; [vm_compute; reflexivity |].
  split; [reflexivity |].
  apply (list_posts_filters Blog.exact Blog.store
           (Blog.by_tags "rocq,baking") 200 2 2
           {| next := None; prev := None |} None).
  vm_compute. reflexivity.
Defined.

(** The category tech, asked with and without other parameters. *)
Lemma category_posts_page_witness :
  category_posts Blog.exact Blog.store "tech" Sample.no_query
  = category_posts Blog.exact Blog.store "tech" (Blog.by_tags "baking").
Proof.
  apply (category_posts_page Blog.exact Blog.store "tech" Sample.no_query
           (Blog.by_tags "baking") eq_refl eq_refl).
Defined.

(** A page that is not a number. *)
Lemma paging_defaults_witness :
  list_posts Blog.exact Blog.store (Sample.with_page "abc" Sample.no_query)
  = list_posts Blog.exact Blog.store
      (set_q_page (Some "1") (Sample.with_page "abc" Sample.no_query)).
Proof.
  apply (proj1 (paging_defaults Blog.exact Blog.store
                  (Sample.as_user Sample.alice) "tech"
                  (Sample.with_page "abc" Sample.no_query))).
  left. reflexivity.
Defined.

(** Page -1. *)
Lemma negative_page_is_an_error_witness :
  exists e, list_posts Blog.exact Blog.store
              (Sample.with_page "-1" Sample.no_query) = Next e.
Proof.
  apply (negative_page_is_an_error Blog.exact Blog.store
           (Sample.as_user Sample.alice) "tech"
           (Sample.with_page "-1" Sample.no_query));
    vm_compute; congruence.
Defined.

(** The first page and the second, in another order: the same total. *)
Lemma list_posts_total_witness :
  0 <= 2 /\ 2 <= 2 /\ 2 = 2 /\ 0 = Z.of_nat (length (@nil PostView)).
Proof.
  apply (list_posts_total Blog.exact Blog.store
           (Sample.with_page "2" Sample.no_query)
           (Sample.with_sortBy "oldest" Sample.no_query)
           200 0 2 {| next := None; prev := Some {| page := 1; limit := 10 |} |}
           None []
           200 2 2 {| next := None; prev := None |} None
           (populate Blog.store
              <$> [(Sample.post1,
                    Blog.tagged "rocq" "published" Sample.alice "tech"
                                ["proof"; "rocq"] 100);
                   (Sample.post2,
                    Blog.tagged "bread" "published" Sample.bob "food"
                                ["baking"] 200)])
           eq_refl eq_refl eq_refl eq_refl);
    vm_compute; reflexivity.
Defined.

(** ** The routes on one post: missing posts and malformed identifiers *)

Lemma findById_missing (s : Store) (rid k : string) :
  cast_oid rid = Ok k -> posts s !! k = None -> findById rid s = Ok None.
Proof. unfold findById. intros -> Hp. cbn. by rewrite Hp. Qed.

Lemma findById_malformed (s : Store) (rid : string) (e : Error) :
  cast_oid rid = Throw e -> findById rid s = Throw e.
Proof. unfold findById. by intros ->. Qed.

Lemma cast_oid_malformed (rid : string) :
  String.length rid <> 24%nat
  \/ forallb is_hex (list_ascii_of_string rid) = false ->
  cast_oid rid = Throw CastError.
Proof.
  unfold cast_oid. intros [H | H].
  - apply Nat.eqb_neq in H. by rewrite H.
  - rewrite H. by rewrite andb_false_r.
Qed.

Lemma findById_save (s : Store) (rid k : string) (p p' : Post) :
  findById rid s = Ok (Some (k, p)) ->
  findById rid (save k p' s) = Ok (Some (k, p')).
Proof.
  unfold findById. destruct (cast_oid rid) as [k0 |]; cbn; [| discriminate].
  destruct (posts s !! k0) eqn:Hp; cbn; [| discriminate].
  intros H. injection H as -> _. by rewrite lookup_insert_eq.
Qed.

Section OnePost.

Variable default_status : string.
Variable validate_doc : Post -> bool.
Variable validate_update : PostBody -> bool.

(** X6: when no post has the identifier of the path, each of the six
    routes on one post answers 404 "Post not found" and leaves the store as
    it is, whoever asks and whatever the body: the lookup comes before the
    ownership test and before the update validators. *)
Theorem missing_post_is_404 (s : Store) (user : option ReqUser) (u : ReqUser)
    (rid k : string) (body : PostBody) (now : Z) (fresh content cid : string) :
  cast_oid rid = Ok k -> posts s !! k = None ->
  get_post s user rid = (Json 404 (Fail "Post not found"), s)
  /\ update_post validate_update s u rid body
     = (Json 404 (Fail "Post not found"), s)
  /\ delete_post s u rid = (Json 404 (Fail "Post not found"), s)
  /\ like_post now s u rid = (Json 404 (Fail "Post not found"), s)
  /\ add_comment fresh now s u rid content
     = (Json 404 (Fail "Post not found"), s)
  /\ delete_comment s u rid cid = (Json 404 (Fail "Post not found"), s).
Proof.
  intros Hc Hp.
  unfold get_post, update_post, delete_post, like_post, add_comment,
    delete_comment.
  rewrite (findById_missing s rid k Hc Hp). by repeat split.
Qed.

(** X7: an identifier in the path whose length is neither 24 nor 12, or
    that has 24 characters not all of them hexadecimal digits, makes each
    of the six routes on one post forward a cast error to the error
    handler, and the store is left as it is. *)
Theorem malformed_id_is_forwarded (s : Store) (user : option ReqUser)
    (u : ReqUser) (rid : string) (body : PostBody) (now : Z)
    (fresh content cid : string) :
  (String.length rid <> 24%nat /\ String.length rid <> 12%nat)
  \/ (String.length rid = 24%nat
      /\ forallb is_hex (list_ascii_of_string rid) = false) ->
  get_post s user rid = (Next CastError, s)
  /\ update_post validate_update s u rid body = (Next CastError, s)
  /\ delete_post s u rid = (Next CastError, s)
  /\ like_post now s u rid = (Next CastError, s)
  /\ add_comment fresh now s u rid content = (Next CastError, s)
  /\ delete_comment s u rid cid = (Next CastError, s).
Proof.
  intros H.
  assert (Hc : cast_oid rid = Throw CastError).
  { apply cast_oid_malformed. destruct H as [[H _] | [_ H]]; auto. }
  unfold get_post, update_post, delete_post, like_post, add_comment,
    delete_comment.
  rewrite (findById_malformed s rid CastError Hc). by repeat split.
Qed.

End OnePost.

(** A well-formed identifier that no post has. *)
Lemma missing_post_is_404_witness :
  get_post Sample.one_post None Blog.post9
  = (Json 404 (Fail "Post not found"), Sample.one_post)
  /\ delete_post Sample.one_post (Sample.as_admin Sample.bob) Blog.post9
     = (Json 404 (Fail "Post not found"), Sample.one_post).
Proof.
  destruct (missing_post_is_404 Sample.accept_update Sample.one_post None
              (Sample.as_admin Sample.bob) Blog.post9 Blog.post9
              Sample.an_edit 0 "" "" "" eq_refl eq_refl)
    as (H1 & _ & H3 & _).
  split; [exact H1 | exact H3].
Defined.

(** The identifier "42". *)
Lemma malformed_id_is_forwarded_witness :
  like_post 0 Sample.one_post (Sample.as_user Sample.bob) "42"
  = (Next CastError, Sample.one_post).
Proof.
  destruct (malformed_id_is_forwarded Sample.accept_update Sample.one_post
              None (Sample.as_user Sample.bob) "42" Sample.an_edit 0 "" "" ""
              ltac:(left; split; vm_compute; congruence))
    as (_ & _ & _ & H & _).
  exact H.
Defined.

(** ** POST / *)

Section Create.

Variable default_status : string.
Variable validate_doc : Post -> bool.

(** POST / forwards an error and stores nothing, or stores the document
    it makes of the body. *)
Lemma create_post_cases (fresh : ObjectId) (now : Z) (s : Store)
    (u : ReqUser) (body : PostBody) :
  let r := create_post default_status validate_doc fresh now s u body in
  (exists e, r = (Next e, s))
  \/ (exists a t c,
        cast_oid (user_id u) = Ok a /\ b_title body = Some t
        /\ b_content body = Some c /\ posts s !! fresh = None
        /\ let p := {| title := t; content := c;
                       category := b_category body;
                       tags := default [] (b_tags body);
                       status := default default_status (b_status body);
                       author := a;
                       likes := default [] (b_likes body);
                       comments := default [] (b_comments body);
                       viewCount := default 0 (b_viewCount body);
                       createdAt := now |} in
           validate_doc p = true
           /\ r = (Json 201 (OnePost (Some "Post created successfully")
                               (Some (populate (save fresh p s) (fresh, p)))),
                   save fresh p s)).
Proof.
  unfold create_post, create. cbn.
  destruct (cast_oid (user_id u)) as [a | e]; cbn; [| left; by eexists].
  destruct (b_title body) as [t |]; cbn; [| left; by eexists].
  destruct (b_content body) as [c |]; cbn; [| left; by eexists].
  destruct (validate_doc _) eqn:Hv; [| left; by eexists].
  destruct (posts s !! fresh) as [p0 |] eqn:Hf; [left; by eexists |].
  right. exists a, t, c. repeat split; try done.
  cbn. by rewrite lookup_insert_eq.
Qed.

(** X8: POST / makes the caller the author of the new post: an [author]
    in the body has no effect on the response or on the store, and the post
    stored under the new identifier has the caller's identifier for author;
    the response is 201 and carries that post. *)
Theorem create_post_author (fresh : ObjectId) (now : Z) (s : Store)
    (u : ReqUser) (body : PostBody) :
  (forall x, create_post default_status validate_doc fresh now s u
                         (set_b_author x body)
             = create_post default_status validate_doc fresh now s u body)
  /\ (forall st b s',
        create_post default_status validate_doc fresh now s u body
        = (Json st b, s') ->
        exists p, posts s' !! fresh = Some p
                  /\ cast_oid (user_id u) = Ok (author p)
                  /\ st = 201
                  /\ b = OnePost (Some "Post created successfully")
                                 (Some (populate s' (fresh, p)))).
Proof.
  split; [reflexivity |].
  intros st b s' H.
  destruct (create_post_cases fresh now s u body)
    as [(e & Hf) | (a & t & c & Ha & _ & _ & _ & _ & Hr)];
    cbv zeta in *; rewrite H in *; [discriminate |].
  injection Hr as -> -> ->. eexists. split; [apply save_lookup |].
  by repeat split.
Qed.

(** X9: POST / either stores nothing and forwards an error to the error
    handler (so it does when [title] or [content] is missing or the new
    identifier is taken), or answers 201 and stores exactly one new post
    under the new identifier, which was free: the other posts and the users
    are what they were, and the new post has the body's title and content,
    the body's status or the default one, and no likes, no comments and
    zero views when the body gives none. *)
Theorem create_post_effect (fresh : ObjectId) (now : Z) (s : Store)
    (u : ReqUser) (body : PostBody) :
  let r := create_post default_status validate_doc fresh now s u body in
  ((exists e, r = (Next e, s))
   \/ (posts s !! fresh = None
       /\ (exists b, r.1 = Json 201 b)
       /\ (forall k, k <> fresh -> posts r.2 !! k = posts s !! k)
       /\ users r.2 = users s
       /\ exists p, posts r.2 !! fresh = Some p
                    /\ b_title body = Some (title p)
                    /\ b_content body = Some (content p)
                    /\ status p = default default_status (b_status body)
                    /\ (b_likes body = None -> likes p = [])
                    /\ (b_comments body = None -> comments p = [])
                    /\ (b_viewCount body = None -> viewCount p = 0)))
  /\ (b_title body = None \/ b_content body = None
      \/ is_Some (posts s !! fresh) ->
      exists e, r = (Next e, s)).
Proof.
  intros r.
  destruct (create_post_cases fresh now s u body)
    as [Hf | (a & t & c & Ha & Ht & Hc & Hfree & Hv & Hr)];
    cbv zeta in *; fold r in Hf || fold r in Hr.
  - split; [by left | by intros _].
  - split.
    + right. rewrite Hr. cbn [fst snd]. split; [exact Hfree |].
      split; [eauto |]. split; [intros k Hk; by apply save_lookup_ne |].
      split; [reflexivity |].
      eexists. split; [apply save_lookup |]. cbn.
      repeat split; try done; by intros ->.
    + intros [H | [H | [x H]]]; congruence.
Qed.

End Create.

(** ** Comments *)

Lemma set_comments_twice (c c' : list Comment) (p : Post) :
  set_comments c (set_comments c' p) = set_comments c p.
Proof. reflexivity. Qed.

Lemma set_comments_same (p : Post) : set_comments (comments p) p = p.
Proof. by destruct p. Qed.

Lemma add_comment_found (fresh : ObjectId) (now : Z) (s : Store)
    (u : ReqUser) (rid k content : string) (p : Post) :
  cast_oid rid = Ok k -> posts s !! k = Some p ->
  let newComment := {| comment_id := fresh; comment_user := user_id u;
                       comment_content := content;
                       comment_createdAt := now |} in
  add_comment fresh now s u rid content
  = (Json 201 (CommentResult "Comment added successfully" (Some newComment)),
     save k (set_comments (newComment :: comments p) p) s).
Proof.
  intros Hc Hp newComment. unfold add_comment.
  rewrite (findById_found s rid k p Hc Hp). cbn [fst snd].
  by rewrite (findById_save s rid k p _ (findById_found s rid k p Hc Hp)).
Qed.

(** X10: on an existing post POST /:id/comments answers 201 with the
    comment it has just stored: the caller as its user, the content of the
    body, the time of the request; the comment is put in front of the
    comments of the post, whose other fields, like the other posts, are
    what they were.  Any authenticated user may comment on any post,
    published or not. *)
Theorem add_comment_prepends (fresh : ObjectId) (now : Z) (s : Store)
    (u : ReqUser) (rid k content : string) (p : Post) :
  cast_oid rid = Ok k -> posts s !! k = Some p ->
  exists c s' p',
    add_comment fresh now s u rid content
    = (Json 201 (CommentResult "Comment added successfully" (Some c)), s')
    /\ comment_user c = user_id u /\ comment_content c = content
    /\ comment_id c = fresh /\ comment_createdAt c = now
    /\ posts s' !! k = Some p'
    /\ comments p' = c :: comments p
    /\ p' = set_comments (comments p') p
    /\ (forall k', k' <> k -> posts s' !! k' = posts s !! k')
    /\ users s' = users s.
Proof.
  intros Hc Hp. eexists _, _, _.
  split; [apply (add_comment_found fresh now s u rid k content p Hc Hp) |].
  rewrite save_lookup. repeat split.
  intros k' Hk. by apply save_lookup_ne.
Qed.

(** X11: a comment that has just been added can be deleted by the user
    who added it, under the identifier it was given, and the store is then
    exactly what it was before the comment: the new comment is the first of
    the array, so it is the one the deletion finds, also when an older
    comment has the same identifier. *)
Theorem add_then_delete_comment (fresh : ObjectId) (now : Z) (s : Store)
    (u : ReqUser) (rid k content : string) (p : Post) :
  cast_oid rid = Ok k -> posts s !! k = Some p ->
  delete_comment (add_comment fresh now s u rid content).2 u rid fresh
  = (Json 200 (Done "Comment deleted successfully"), s).
Proof.
  intros Hc Hp.
  rewrite (add_comment_found fresh now s u rid k content p Hc Hp).
  cbn [snd]. unfold delete_comment.
  rewrite (findById_found _ rid k _ Hc (save_lookup _ _ _)).
  cbn [fst snd comments set_comments List.find comment_id JS.findIndex].
  rewrite String.eqb_refl.
  cbn [comment_user]. rewrite String.eqb_refl. cbn.
  rewrite save_save. unfold JS.splice1. cbn. rewrite drop_0.
  rewrite set_comments_twice, set_comments_same. f_equal.
  by apply save_same.
Qed.

(** Carol comments on alice's post. *)
Lemma add_comment_prepends_witness :
  exists c s',
    add_comment "000000000000000000000c03" 7 Sample.commented
                (Sample.as_user Sample.carol) Sample.post1 "again"
    = (Json 201 (CommentResult "Comment added successfully" (Some c)), s')
    /\ comment_user c = Sample.carol /\ comment_content c = "again".
Proof.
  destruct (add_comment_prepends "000000000000000000000c03" 7
              Sample.commented (Sample.as_user Sample.carol) Sample.post1
              Sample.post1 "again" Sample.the_commented eq_refl eq_refl)
    as (c & s' & p' & H1 & H2 & H3 & _).
  exists c, s'. by repeat split.
Defined.

(** Carol comments on alice's post and takes the comment back. *)
Lemma add_then_delete_comment_witness :
  delete_comment
    (add_comment "000000000000000000000c03" 7 Sample.commented
                 (Sample.as_user Sample.carol) Sample.post1 "again").2
    (Sample.as_user Sample.carol) Sample.post1 "000000000000000000000c03"
  = (Json 200 (Done "Comment deleted successfully"), Sample.commented).
Proof.
  apply (add_then_delete_comment "000000000000000000000c03" 7
           Sample.commented (Sample.as_user Sample.carol) Sample.post1
           Sample.post1 "again" Sample.the_commented eq_refl eq_refl).
Defined.

(** ** The like toggle, once *)

(** X12: on an existing post the like toggle answers [liked: true]
    exactly when the caller was not among the users of the like list, and
    [likeCount] is the length of the like list it stores: one more than
    before with the caller's like in front, or one less with only the first
    like of the caller taken out; the other fields of the post, the other
    posts and the users are what they were. *)
Theorem like_post_once (now : Z) (s : Store) (u : ReqUser)
    (rid k : string) (p : Post) :
  cast_oid rid = Ok k -> posts s !! k = Some p ->
  exists m liked l',
    like_post now s u rid
    = (Json 200 (LikeResult m liked (Z.of_nat (length l'))),
       save k (set_likes l' p) s)
    /\ (liked = true <-> user_id u ∉ like_user <$> likes p)
    /\ (liked = true ->
        l' = {| like_user := user_id u; like_createdAt := now |} :: likes p)
    /\ (liked = false ->
        exists before x after,
          likes p = before ++ x :: after /\ l' = before ++ after
          /\ like_user x = user_id u
          /\ user_id u ∉ like_user <$> before).
Proof.
  intros Hc Hp.
  assert (Hin : forall l : list Like,
             Forall (fun y => String.eqb (like_user y) (user_id u) = false) l
             -> user_id u ∉ like_user <$> l).
  { intros l Hl Hx. apply list_elem_of_fmap in Hx as (y & Hy & Hx).
    rewrite Forall_forall in Hl. specialize (Hl y Hx).
    apply String.eqb_neq in Hl. congruence. }
  destruct (scan_cases (fun x => String.eqb (like_user x) (user_id u))
                       (likes p))
    as [Hnone | (before & x & after & Hsplit & Hx & Hb)].
  - assert (Hn : Forall (fun y => like_user y <> user_id u) (likes p)).
    { eapply Forall_impl; [exact Hnone |]. intros y. apply String.eqb_neq. }
    rewrite (like_post_like now s u rid k p Hc Hp Hn).
    eexists _, true, (_ :: likes p). split; [reflexivity |].
    repeat split; auto; discriminate.
  - apply String.eqb_eq in Hx.
    assert (Hb' : Forall (fun y => like_user y <> user_id u) before).
    { eapply Forall_impl; [exact Hb |]. intros y. apply String.eqb_neq. }
    rewrite (like_post_unlike now s u rid k p before x after
               Hc Hp Hsplit Hx Hb').
    eexists _, false, (before ++ after). split; [reflexivity |].
    repeat split; try discriminate.
    + intros Hnot. exfalso. apply Hnot. rewrite Hsplit, fmap_app, fmap_cons.
      apply elem_of_app. right. rewrite Hx. constructor.
    + intros _. exists before, x, after. repeat split; auto.
Qed.

(** Bob likes alice's post. *)
Lemma like_post_once_witness :
  exists m liked (l' : list Like) s',
    like_post 5 Sample.one_post (Sample.as_user Sample.bob) Sample.post1
    = (Json 200 (LikeResult m liked (Z.of_nat (length l'))), s')
    /\ (liked = true <-> Sample.bob ∉ like_user <$> likes Sample.the_post).
Proof.
  destruct (like_post_once 5 Sample.one_post (Sample.as_user Sample.bob)
              Sample.post1 Sample.post1 Sample.the_post eq_refl eq_refl)
    as (m & liked & l' & H1 & H2 & _).
  exists m, liked, l'. eexists. split; [exact H1 | exact H2].
Defined.

(** ** What no request does *)

Ltac not_failed :=
  let Hf := fresh "Hf" in
  intros Hf; try reflexivity;
  destruct Hf as [(? & ? & Hf) | (? & Hf)]; discriminate.

Lemma dom_save (s : Store) (k : string) (p p' : Post) :
  posts s !! k = Some p -> dom (posts (save k p' s)) = dom (posts s).
Proof.
  intros Hp. unfold save. cbn. apply dom_insert_lookup_L. by rewrite Hp.
Qed.

Section Frame.

Variable regex_i : string -> option (string -> bool).
Variable default_status : string.
Variable validate_doc : Post -> bool.
Variable validate_update : PostBody -> bool.

(** X13: a request that is answered with a failure (a body
    [{ success: false, message }], as for 404 and 401) or whose error is
    forwarded to the error handler leaves the store exactly as it was:
    no route writes before it refuses. *)
Theorem failure_changes_nothing (s : Store) (r : Request) :
  failed (handle regex_i default_status validate_doc validate_update s r).1 ->
  (handle regex_i default_status validate_doc validate_update s r).2 = s.
Proof.
  destruct r as [q | u q | user rid | fresh now u body | u rid body
                 | u rid | now u rid | fresh now u rid content
                 | u rid cid | cat q]; cbn [handle fst snd];
    try reflexivity.
  - (* GET /:id *)
    unfold get_post.
    destruct (findById rid s) as [[d |] | e]; try reflexivity.
    repeat match goal with
           | |- context [match ?x with _ => _ end] => destruct x
           end; cbn [fst snd]; not_failed.
  - (* POST / *)
    destruct (create_post_cases default_status validate_doc fresh now s u body)
      as [(e & ->) | (a & t & c & _ & _ & _ & _ & _ & ->)];
      cbn [fst snd]; not_failed.
  - (* PUT /:id *)
    unfold update_post.
    destruct (findById rid s) as [[d |] | e]; try reflexivity.
    destruct (not_owner_nor_admin u d.2); try reflexivity.
    destruct (findByIdAndUpdate _ _ _ _) as [[s' post] | e];
      cbn [fst snd]; not_failed.
  - (* DELETE /:id *)
    unfold delete_post.
    destruct (findById rid s) as [[d |] | e]; try reflexivity.
    destruct (not_owner_nor_admin u d.2); try reflexivity.
    destruct (findByIdAndDelete _ _) as [s' | e]; cbn [fst snd]; not_failed.
  - (* PUT /:id/like *)
    unfold like_post.
    destruct (findById rid s) as [[d |] | e]; try reflexivity.
    destruct (JS.findIndex _ _); cbn [fst snd]; not_failed.
  - (* POST /:id/comments *)
    unfold add_comment.
    destruct (findById rid s) as [[[k p] |] | e] eqn:Hf; try reflexivity.
    cbn [fst snd]. rewrite (findById_save s rid k p _ Hf).
    cbn [fst snd]. not_failed.
  - (* DELETE /:id/comments/:commentId *)
    unfold delete_comment.
    destruct (findById rid s) as [[d |] | e]; try reflexivity.
    destruct (List.find _ _); try reflexivity.
    destruct (_ && _); cbn [fst snd]; not_failed.
Qed.

(** X14: no request of this router writes to the users: after any
    request the user collection is what it was. *)
Theorem users_untouched (s : Store) (r : Request) :
  users (handle regex_i default_status validate_doc validate_update s r).2
  = users s.
Proof.
  destruct r as [q | u q | user rid | fresh now u body | u rid body
                 | u rid | now u rid | fresh now u rid content
                 | u rid cid | cat q]; cbn [handle fst snd];
    try reflexivity.
  - unfold get_post.
    repeat match goal with
           | |- context [match ?x with _ => _ end] => destruct x
           end; reflexivity.
  - destruct (create_post_cases default_status validate_doc fresh now s u body)
      as [(e & ->) | (a & t & c & _ & _ & _ & _ & _ & ->)]; reflexivity.
  - unfold update_post.
    destruct (findById rid s) as [[d |] | e]; try reflexivity.
    destruct (not_owner_nor_admin u d.2); try reflexivity.
    destruct (findByIdAndUpdate _ _ _ _) as [[s' post] | e] eqn:Hup;
      try reflexivity.
    by apply findByIdAndUpdate_inv in Hup as [-> | (k & p & a & _ & ->)].
  - unfold delete_post, findByIdAndDelete.
    destruct (findById rid s) as [[d |] | e]; try reflexivity.
    destruct (not_owner_nor_admin u d.2); try reflexivity.
    by destruct (cast_oid rid).
  - unfold like_post.
    repeat match goal with
           | |- context [match ?x with _ => _ end] => destruct x
           end; reflexivity.
  - unfold add_comment.
    repeat match goal with
           | |- context [match ?x with _ => _ end] => destruct x
           end; reflexivity.
  - unfold delete_comment.
    repeat match goal with
           | |- context [match ?x with _ => _ end] => destruct x
           end; reflexivity.
Qed.

(** X15: only POST / adds a post and only DELETE /:id removes one.  After
    POST / the identifiers of the posts are the old ones and possibly the
    new one; after DELETE /:id they are the old ones, possibly without
    the one of the path; after any other request (fetch, update, like
    toggle, comment add and delete, the listings) they are exactly the old
    ones. *)
Theorem posts_added_and_removed (s : Store) (r : Request) :
  let s' := (handle regex_i default_status validate_doc validate_update s r).2
  in
  match r with
  | POST_post fresh _ _ _ =>
      dom (posts s) ⊆ dom (posts s')
      /\ dom (posts s') ⊆ {[fresh]} ∪ dom (posts s)
  | DELETE_post _ rid =>
      dom (posts s') ⊆ dom (posts s)
      /\ forall k, cast_oid rid = Ok k ->
                   dom (posts s) ∖ {[k]} ⊆ dom (posts s')
  | _ => dom (posts s') = dom (posts s)
  end.
Proof.
  destruct r as [q | u q | user rid | fresh now u body | u rid body
                 | u rid | now u rid | fresh now u rid content
                 | u rid cid | cat q]; cbn [handle fst snd];
    try reflexivity.
  - (* GET /:id *)
    unfold get_post.
    destruct (findById rid s) as [[d |] | e] eqn:Hf; try reflexivity.
    apply findById_inv in Hf.
    repeat match goal with
           | |- context [match ?x with _ => _ end] => destruct x
           end; cbn [snd]; try reflexivity.
    by apply (dom_save s d.1 d.2).
  - (* POST / *)
    destruct (create_post_cases default_status validate_doc fresh now s u body)
      as [(e & ->) | (a & t & c & _ & _ & _ & _ & _ & ->)]; cbn [snd].
    + set_solver.
    + unfold save. cbn. rewrite dom_insert_L. set_solver.
  - (* PUT /:id *)
    unfold update_post.
    destruct (findById rid s) as [[d |] | e]; try reflexivity.
    destruct (not_owner_nor_admin u d.2); try reflexivity.
    destruct (findByIdAndUpdate _ _ _ _) as [[s' post] | e] eqn:Hup;
      try reflexivity.
    apply findByIdAndUpdate_inv in Hup as [-> | (k & p & a & Hp & ->)];
      cbn [snd]; [reflexivity |].
    by apply (dom_save s k p).
  - (* DELETE /:id *)
    unfold delete_post, findByIdAndDelete.
    destruct (findById rid s) as [[d |] | e]; cbn [snd];
      try (split; [done | set_solver]).
    destruct (not_owner_nor_admin u d.2); cbn [snd];
      try (split; [done | set_solver]).
    destruct (cast_oid rid) as [k |]; cbn; [| split; [done | set_solver]].
    rewrite dom_delete_L. split; [set_solver |].
    intros k' Hk. injection Hk as <-. done.
  - (* PUT /:id/like *)
    unfold like_post.
    destruct (findById rid s) as [[d |] | e] eqn:Hf; try reflexivity.
    apply findById_inv in Hf.
    destruct (JS.findIndex _ _); cbn [snd]; by apply (dom_save s d.1 d.2).
  - (* POST /:id/comments *)
    unfold add_comment.
    destruct (findById rid s) as [[d |] | e] eqn:Hf; try reflexivity.
    apply findById_inv in Hf.
    repeat match goal with
           | |- context [match ?x with _ => _ end] => destruct x
           end; cbn [snd]; by apply (dom_save s d.1 d.2).
  - (* DELETE /:id/comments/:commentId *)
    unfold delete_comment.
    destruct (findById rid s) as [[d |] | e] eqn:Hf; try reflexivity.
    apply findById_inv in Hf.
    repeat match goal with
           | |- context [match ?x with _ => _ end] => destruct x
           end; cbn [snd]; try reflexivity; by apply (dom_save s d.1 d.2).
Qed.

End Frame.

(** ** Requests in sequence *)

Lemma delete_post_allowed (s : Store) (u : ReqUser) (rid k : string)
    (p : Post) :
  cast_oid rid = Ok k -> posts s !! k = Some p ->
  user_id u = author p \/ user_role u = "admin" ->
  delete_post s u rid
  = (Json 200 (Done "Post deleted successfully"),
     set_posts (delete k (posts s)) s).
Proof.
  intros Hc Hp Hu. unfold delete_post, findByIdAndDelete.
  rewrite (findById_found s rid k p Hc Hp). cbn [snd].
  assert (Hgate : not_owner_nor_admin u p = false).
  { unfold not_owner_nor_admin.
    destruct (String.eqb_spec (author p) (user_id u)); [done |].
    destruct (String.eqb_spec (user_role u) "admin"); [done |].
    destruct Hu; congruence. }
  by rewrite Hgate, Hc.
Qed.

Section Sequences.

Variable default_status : string.
Variable validate_doc : Post -> bool.
Variable validate_update : PostBody -> bool.

(** X16: once its author or an admin has deleted a post, every route on
    that identifier answers 404 "Post not found", to anyone, and a second
    DELETE does too; the other posts are what they were. *)
Theorem deleted_post_is_gone (s : Store) (u u' : ReqUser)
    (user : option ReqUser) (rid k : string) (p : Post) (body : PostBody)
    (now : Z) (fresh content cid : string) :
  cast_oid rid = Ok k -> posts s !! k = Some p ->
  user_id u = author p \/ user_role u = "admin" ->
  let s' := (delete_post s u rid).2 in
  get_post s' user rid = (Json 404 (Fail "Post not found"), s')
  /\ update_post validate_update s' u' rid body
     = (Json 404 (Fail "Post not found"), s')
  /\ delete_post s' u' rid = (Json 404 (Fail "Post not found"), s')
  /\ like_post now s' u' rid = (Json 404 (Fail "Post not found"), s')
  /\ add_comment fresh now s' u' rid content
     = (Json 404 (Fail "Post not found"), s')
  /\ delete_comment s' u' rid cid = (Json 404 (Fail "Post not found"), s')
  /\ forall k', k' <> k -> posts s' !! k' = posts s !! k'.
Proof.
  intros Hc Hp Hu s'. subst s'.
  rewrite (delete_post_allowed s u rid k p Hc Hp Hu). cbn [snd].
  assert (Hgone : findById rid (set_posts (delete k (posts s)) s) = Ok None).
  { apply (findById_missing _ rid k Hc). cbn. apply lookup_delete_eq. }
  unfold get_post, update_post, delete_post, like_post, add_comment,
    delete_comment.
  rewrite Hgone. repeat split.
  intros k' Hk. cbn. by apply lookup_delete_ne.
Qed.

(** X17: a post that POST / has just created as published, the body
    giving no view count, is sent by GET /:id to anyone, under the new
    identifier, with the caller of POST / as author, the title of the body
    and a view count of 1; created with another status it is answered with
    404 to an anonymous caller.  (The new identifier is a canonical
    ObjectId.) *)
Theorem created_post_is_fetched (fresh : ObjectId) (now : Z) (s : Store)
    (u : ReqUser) (body : PostBody) (user : option ReqUser) st b s' :
  create_post default_status validate_doc fresh now s u body
  = (Json st b, s') ->
  cast_oid fresh = Ok fresh -> b_viewCount body = None ->
  (b_status body = Some "published" ->
   exists v s'',
     get_post s' user fresh = (Json 200 (OnePost None (Some v)), s'')
     /\ view_id v = fresh /\ viewCount (view_post v) = 1
     /\ b_title body = Some (title (view_post v))
     /\ cast_oid (user_id u) = Ok (author (view_post v)))
  /\ (forall x, b_status body = Some x -> x <> "published" ->
                get_post s' None fresh
                = (Json 404 (Fail "Post not found"), s')).
Proof.
  intros H Hfresh Hvc.
  destruct (create_post_cases default_status validate_doc fresh now s u body)
    as [(e & Hf) | (a & t & c & Ha & Ht & _ & _ & _ & Hr)];
    cbv zeta in *; rewrite H in *; [discriminate |].
  injection Hr as -> -> ->. split.
  - intros Hst.
    rewrite (get_post_published _ user fresh fresh _ Hfresh
               (save_lookup _ _ _)) by (cbn; by rewrite Hst).
    eexists _, _. split; [reflexivity |].
    cbn. rewrite Hvc. by repeat split.
  - intros x Hst Hx. unfold get_post.
    rewrite (findById_found _ fresh fresh _ Hfresh (save_lookup _ _ _)).
    cbn. rewrite Hst. cbn.
    by destruct (String.eqb_spec x "published").
Qed.

End Sequences.

(** Alice deletes her post; bob then asks for it. *)
Lemma deleted_post_is_gone_witness :
  get_post (delete_post Sample.one_post (Sample.as_user Sample.alice)
                        Sample.post1).2
           (Some (Sample.as_user Sample.bob)) Sample.post1
  = (Json 404 (Fail "Post not found"),
     (delete_post Sample.one_post (Sample.as_user Sample.alice)
                  Sample.post1).2).
Proof.
  apply (deleted_post_is_gone Sample.accept_update Sample.one_post
           (Sample.as_user Sample.alice) (Sample.as_user Sample.bob)
           (Some (Sample.as_user Sample.bob)) Sample.post1 Sample.post1
           Sample.the_post Sample.an_edit 0 "" "" "" eq_refl eq_refl).
  left. reflexivity.
Defined.

(** Bob creates a published post; an anonymous caller fetches it. *)
Lemma created_post_is_fetched_witness :
  exists v s'',
    get_post (create_post Sample.a_status Sample.accept_doc Blog.post9 50
                          Sample.one_post (Sample.as_user Sample.bob)
                          Blog.a_new_post).2
             None Blog.post9
    = (Json 200 (OnePost None (Some v)), s'')
    /\ view_id v = Blog.post9 /\ viewCount (view_post v) = 1
    /\ author (view_post v) = Sample.bob.
Proof.
  destruct (create_post Sample.a_status Sample.accept_doc Blog.post9 50
              Sample.one_post (Sample.as_user Sample.bob) Blog.a_new_post)
    as [o s'] eqn:Hcr.
  assert (Ho : exists b, o = Json 201 b).
  { vm_compute in Hcr. injection Hcr as <- _. eauto. }
  destruct Ho as [b ->].
  destruct (created_post_is_fetched Sample.a_status Sample.accept_doc
              Blog.post9 50 Sample.one_post (Sample.as_user Sample.bob)
              Blog.a_new_post None 201 b s' Hcr eq_refl eq_refl) as [H _].
  destruct (H eq_refl) as (v & s'' & H1 & H2 & H3 & _ & H5).
  exists v, s''. cbn [snd]. repeat split; try assumption.
  vm_compute in H5. injection H5 as H5. symmetry. exact H5.
Defined.

(** The refused update of the claim C8, seen through the router. *)
Lemma failure_changes_nothing_witness :
  (handle Sample.no_regex Sample.a_status Sample.accept_doc
          Sample.accept_update Sample.one_post
          (PUT_post (Sample.as_user Sample.bob) Sample.post1
                    Sample.an_edit)).2
  = Sample.one_post.
Proof.
  apply (failure_changes_nothing Sample.no_regex Sample.a_status
           Sample.accept_doc Sample.accept_update Sample.one_post
           (PUT_post (Sample.as_user Sample.bob) Sample.post1
                     Sample.an_edit)).
  left. eexists _, _. vm_compute. reflexivity.
Defined.

(** ** PUT /:id, twice *)

Lemma apply_update_twice (b : PostBody) (a : option ObjectId) (p : Post) :
  apply_update b a (apply_update b a p) = apply_update b a p.
Proof.
  unfold apply_update. cbn.
  destruct (b_title b), (b_content b), (b_category b), (b_tags b),
    (b_status b), a, (b_likes b), (b_comments b), (b_viewCount b);
    reflexivity.
Qed.

Section Twice.

Variable validate_update : PostBody -> bool.

(** The store after PUT /:id: unchanged, or with the updated post. *)
Lemma update_post_store (s : Store) (u : ReqUser) (rid : string)
    (body : PostBody) :
  (update_post validate_update s u rid body).2 = s
  \/ exists k p a,
      cast_oid rid = Ok k /\ posts s !! k = Some p
      /\ cast_opt (b_author body) = Ok a
      /\ (update_post validate_update s u rid body).2
         = save k (apply_update body a p) s.
Proof.
  unfold update_post, findByIdAndUpdate, findById.
  destruct (cast_oid rid) as [k |] eqn:Hc; cbn; [| by left].
  destruct (posts s !! k) as [p |] eqn:Hp; cbn; [| by left].
  destruct (not_owner_nor_admin u p); [by left |].
  destruct (cast_opt (b_author body)) as [a |] eqn:Ha; cbn; [| by left].
  destruct (validate_update body); [| by left].
  right. by exists k, p, a.
Qed.

(** X18: an update that sets neither [likes] nor [comments] is idempotent
    on the store: sending it a second time, by the same caller, leaves the
    store as the first request left it, whether the second is accepted, or
    refused because the first gave the post another author. *)
Theorem update_post_twice (s : Store) (u : ReqUser) (rid : string)
    (body : PostBody) :
  b_likes body = None -> b_comments body = None ->
  let s1 := (update_post validate_update s u rid body).2 in
  (update_post validate_update s1 u rid body).2 = s1.
Proof.
  intros _ _. cbv zeta.
  destruct (update_post_store s u rid body)
    as [H | (k & p & a & Hc & Hp & Ha & H)]; rewrite H.
  - exact H.
  - destruct (update_post_store (save k (apply_update body a p) s) u rid body)
      as [H' | (k' & p' & a' & Hc' & Hp' & Ha' & H')]; rewrite H'.
    + reflexivity.
    + assert (k' = k) as -> by congruence.
      assert (a' = a) as -> by congruence.
      rewrite save_lookup in Hp'. injection Hp' as <-.
      by rewrite save_save, apply_update_twice.
Qed.

End Twice.

(** Alice revises her post, twice with the same body. *)
Lemma update_post_twice_witness :
  (update_post Sample.accept_update
     (update_post Sample.accept_update Sample.one_post
                  (Sample.as_user Sample.alice) Sample.post1
                  Sample.an_edit).2
     (Sample.as_user Sample.alice) Sample.post1 Sample.an_edit).2
  = (update_post Sample.accept_update Sample.one_post
                 (Sample.as_user Sample.alice) Sample.post1
                 Sample.an_edit).2.
Proof.
  apply (update_post_twice Sample.accept_update Sample.one_post
           (Sample.as_user Sample.alice) Sample.post1 Sample.an_edit
           eq_refl eq_refl).
Defined.

(** ** The tags parameter *)

Lemma rev_app_append (a b c : string) :
  String.append (String.rev_app a b) c = String.rev_app a (String.append b c).
Proof.
  revert b. induction a as [| x a IH]; intros b; cbn; [reflexivity |].
  by rewrite IH.
Qed.

Lemma split_comma_aux_cons (cur x : string) :
  exists y l, JS.split_comma_aux cur x = y :: l.
Proof.
  revert cur. induction x as [| c x IH]; intros cur; cbn; [eauto |].
  destruct (Ascii.eqb c ","); eauto.
Qed.

Lemma join_split_comma_aux (cur x : string) :
  join_comma (JS.split_comma_aux cur x)
  = String.append (String.rev cur) x.
Proof.
  revert cur. induction x as [| c x IH]; intros cur; cbn [JS.split_comma_aux].
  - cbn. unfold String.rev. rewrite rev_app_append; reflexivity.
  - destruct (Ascii.eqb_spec c ",") as [-> | Hc].
    + destruct (split_comma_aux_cons "" x) as (y & l & Hy).
      cbn [join_comma]. rewrite Hy. rewrite <- Hy, IH.
      unfold String.rev. cbn. rewrite !rev_app_append; reflexivity.
    + rewrite IH. unfold String.rev. cbn [String.rev_app].
      rewrite !rev_app_append; reflexivity.
Qed.

Lemma has_comma_rev_app (a b : string) :
  has_comma (String.rev_app a b) = has_comma a || has_comma b.
Proof.
  revert b. induction a as [| x a IH]; intros b; [reflexivity |].
  cbn [String.rev_app]. rewrite IH. unfold has_comma. cbn.
  destruct (Ascii.eqb x ","); cbn; by rewrite ?orb_true_r.
Qed.

Lemma split_comma_aux_pieces (cur x : string) :
  has_comma cur = false ->
  Forall (fun y => has_comma y = false) (JS.split_comma_aux cur x).
Proof.
  revert cur. induction x as [| c x IH]; intros cur Hcur;
    cbn [JS.split_comma_aux].
  - constructor; [| constructor]. unfold String.rev.
    by rewrite has_comma_rev_app, Hcur.
  - destruct (Ascii.eqb c ",") eqn:Hc.
    + constructor; [| by apply IH].
      unfold String.rev. by rewrite has_comma_rev_app, Hcur.
    + apply IH. unfold has_comma in *. cbn. by rewrite Hc.
Qed.

(** X19: the tags parameter is cut at its commas and nowhere else: the
    pieces, joined with commas, give back the parameter, no piece has a
    comma in it, and there is at least one piece, so a parameter without a
    comma is one tag and adjacent commas give an empty tag. *)
Theorem split_comma_pieces (x : string) :
  join_comma (JS.split_comma x) = x
  /\ Forall (fun y => has_comma y = false) (JS.split_comma x)
  /\ JS.split_comma x <> []
  /\ (has_comma x = false -> JS.split_comma x = [x]).
Proof.
  unfold JS.split_comma. split; [| split; [| split]].
  - by rewrite join_split_comma_aux.
  - by apply split_comma_aux_pieces.
  - destruct (split_comma_aux_cons "" x) as (y & l & ->). discriminate.
  - intros Hx.
    assert (Hgen : forall cur y, has_comma y = false ->
              JS.split_comma_aux cur y
              = [String.append (String.rev cur) y]).
    { intros cur y. revert cur.
      induction y as [| c y IH]; intros cur Hy; cbn [JS.split_comma_aux].
      - unfold String.rev. rewrite rev_app_append; reflexivity.
      - unfold has_comma in Hy. cbn in Hy.
        apply orb_false_iff in Hy as [Hc Hy]. rewrite Hc.
        rewrite (IH _ Hy). unfold String.rev. cbn [String.rev_app].
        rewrite !rev_app_append; reflexivity. }
    by rewrite (Hgen "" x Hx).
Qed.
